(** * Letterboxd Services: the content script [src/content.js]

    A shallow embedding of the content script and the properties of its
    specification.  The script reads film identifiers from the page,
    optionally asks the TMDb search API for a missing identifier, and
    appends one link per service descriptor to a section of the page.

    Conventions of the model.
    - A JavaScript string is a [string] holding its UTF-8 encoding, so
      strings are well-formed Unicode.  Every character the script
      compares against is ASCII, so [split], [startsWith] and the
      character classes [\d] and [[^/]] act on bytes; [\s] and [.] act on
      whole encoded characters (see [Str.chars]).
    - [null] and [undefined] of an optional string are [None]; the values
      that come from the network are JSON values or [undefined], and
      their numbers are integers.
    - The page is a tree of HTML elements and text nodes; an element
      reference is the path of the element from the root.
    - A piece of the script is a function from the page to a [run]: the
      value or the exception it ends with, the page it leaves, and the
      trace of what it did to the DOM, the network, the console and the
      provider.
    - What the browser computes ([href], [innerText], the network, the
      relational comparison of a non-number with 0) and what other scripts
      supply ([getServices], which returns a list of descriptors or a
      falsy value) are fields of a [host]; every theorem holds for every
      host. *)

From Stdlib Require Import String Ascii List Bool Arith ZArith Lia.
Import ListNotations.
Open Scope string_scope.
Open Scope list_scope.
Open Scope nat_scope.

(** ** Strings *)

Module Str.

Definition byte (n : nat) : ascii := ascii_of_nat n.

Definition bytes (l : list nat) : string :=
  fold_right (fun n s => String (byte n) s) "" l.

Definition is_empty (s : string) : bool :=
  match s with EmptyString => true | String _ _ => false end.

(** [s.split("/")]: the segments between slashes; never an empty array. *)
Fixpoint split_slash (s : string) : list string :=
  match s with
  | EmptyString => [""]
  | String c r =>
      if Ascii.eqb c "/" then "" :: split_slash r
      else match split_slash r with
           | x :: xs => String c x :: xs
           | [] => [String c ""]
           end
  end.

(** [array.pop()] read as a value: the last element, [undefined] on []. *)
Fixpoint pop (l : list string) : option string :=
  match l with
  | [] => None
  | [x] => Some x
  | _ :: r => pop r
  end.

(** The character class [\d]. *)
Definition is_digit (c : ascii) : bool :=
  let n := nat_of_ascii c in (48 <=? n) && (n <=? 57).

Fixpoint all_digits (s : string) : bool :=
  match s with
  | EmptyString => true
  | String c r => is_digit c && all_digits r
  end.

(** [/^\d+$/.test(s)] *)
Definition test_digits (s : string) : bool :=
  negb (is_empty s) && all_digits s.

(** A continuation byte of a UTF-8 sequence, 10xxxxxx. *)
Definition is_cont (c : ascii) : bool :=
  let n := nat_of_ascii c in (128 <=? n) && (n <? 192).

(** The encoded characters of a string: each byte with the continuation
    bytes that follow it. *)
Definition starts_with_cont (s : string) : bool :=
  match s with
  | EmptyString => false
  | String d _ => is_cont d
  end.

Fixpoint chars (s : string) : list string :=
  match s with
  | EmptyString => []
  | String c r =>
      match chars r with
      | g :: gs =>
          if starts_with_cont r then String c g :: gs
          else String c "" :: g :: gs
      | [] => [String c ""]
      end
  end.

Definition mem (x : string) (l : list string) : bool :=
  existsb (String.eqb x) l.

(** The class [\s] of ECMAScript: WhiteSpace and LineTerminator. *)
Definition whitespace : list string :=
  [ bytes [9]; bytes [10]; bytes [11]; bytes [12]; bytes [13]; bytes [32];
    bytes [194; 160];                                   (* U+00A0 *)
    bytes [225; 154; 128];                              (* U+1680 *)
    bytes [226; 128; 128]; bytes [226; 128; 129]; bytes [226; 128; 130];
    bytes [226; 128; 131]; bytes [226; 128; 132]; bytes [226; 128; 133];
    bytes [226; 128; 134]; bytes [226; 128; 135]; bytes [226; 128; 136];
    bytes [226; 128; 137]; bytes [226; 128; 138];      (* U+2000 .. U+200A *)
    bytes [226; 128; 168]; bytes [226; 128; 169];      (* U+2028, U+2029 *)
    bytes [226; 128; 175];                              (* U+202F *)
    bytes [226; 129; 159];                              (* U+205F *)
    bytes [227; 128; 128];                              (* U+3000 *)
    bytes [239; 187; 191] ].                            (* U+FEFF *)

Definition is_space (ch : string) : bool := mem ch whitespace.

(** [cs] with every maximal run of [\s] characters replaced by one "-";
    [in_run] tells that the previous character was part of a run. *)
Fixpoint hyphenate_chars (in_run : bool) (cs : list string) : list string :=
  match cs with
  | [] => []
  | ch :: r =>
      if is_space ch
      then (if in_run then hyphenate_chars true r
            else "-" :: hyphenate_chars true r)
      else ch :: hyphenate_chars false r
  end.

(** [s.replace(/\s+/g, "-")] *)
Definition replace_spaces (s : string) : string :=
  String.concat "" (hyphenate_chars false (chars s)).

(** The line terminators, which [.] does not match. *)
Definition line_terminators : list string :=
  [ bytes [10]; bytes [13]; bytes [226; 128; 168]; bytes [226; 128; 169] ].

(** [.] matches one UTF-16 code unit: an encoded character of at most three
    bytes that is not a line terminator.  Returns the text after it. *)
Definition match_dot (s : string) : option string :=
  match chars s with
  | ch :: _ =>
      if (String.length ch <=? 3) && negb (mem ch line_terminators)
      then Some (substring (String.length ch)
                           (String.length s - String.length ch) s)
      else None
  | [] => None
  end.

(** The text after the literal [lit] when [s] starts with it. *)
Fixpoint strip_prefix (lit s : string) : option string :=
  match lit, s with
  | EmptyString, _ => Some s
  | String a lit', String b s' =>
      if Ascii.eqb a b then strip_prefix lit' s' else None
  | String _ _, EmptyString => None
  end.

(** [s.startsWith(lit)] *)
Definition startsWith (lit s : string) : bool :=
  match strip_prefix lit s with
  | Some _ => true
  | None => false
  end.

(** [s.includes(lit)] *)
Fixpoint includes (lit s : string) : bool :=
  match strip_prefix lit s with
  | Some _ => true
  | None =>
      match s with
      | EmptyString => false
      | String _ r => includes lit r
      end
  end.

(** The longest prefix of [s] without a slash: the greedy [[^/]*]. *)
Fixpoint until_slash (s : string) : string :=
  match s with
  | EmptyString => ""
  | String c r => if Ascii.eqb c "/" then "" else String c (until_slash r)
  end.

(** The pattern [letterboxd.com\/film\/([^/]+)] tried at the start of [s];
    the result is the capture group. *)
Definition film_pattern_here (s : string) : option string :=
  match strip_prefix "letterboxd" s with
  | None => None
  | Some s1 =>
      match match_dot s1 with
      | None => None
      | Some s2 =>
          match strip_prefix "com/film/" s2 with
          | None => None
          | Some s3 =>
              let g := until_slash s3 in
              if is_empty g then None else Some g
          end
      end
  end.

(** [s.match(/letterboxd.com\/film\/([^/]+)/)], group 1 of the leftmost
    match. *)
Fixpoint match_film (s : string) : option string :=
  match film_pattern_here s with
  | Some g => Some g
  | None =>
      match s with
      | EmptyString => None
      | String _ r => match_film r
      end
  end.

(** The characters [encodeURIComponent] leaves as they are. *)
Definition is_unreserved (c : ascii) : bool :=
  let n := nat_of_ascii c in
  ((65 <=? n) && (n <=? 90)) || ((97 <=? n) && (n <=? 122))
  || ((48 <=? n) && (n <=? 57))
  || existsb (Nat.eqb n) [45; 95; 46; 33; 126; 42; 39; 40; 41].

Definition hex_digit (n : nat) : ascii :=
  if n <? 10 then byte (48 + n) else byte (55 + n).

(** [encodeURIComponent(s)]: every byte of the UTF-8 encoding that is not
    unreserved becomes "%XX". *)
Fixpoint encodeURIComponent (s : string) : string :=
  match s with
  | EmptyString => ""
  | String c r =>
      if is_unreserved c then String c (encodeURIComponent r)
      else let n := nat_of_ascii c in
           String "%" (String (hex_digit (n / 16))
                      (String (hex_digit (n mod 16)) (encodeURIComponent r)))
  end.

End Str.

(** ** The page: a tree of nodes *)

Definition attrs := list (string * string).

#[local] Unset Elimination Schemes.
Inductive node : Type :=
| Text (data : string)
| Elem (tag : string) (a : attrs) (children : list node).
#[local] Set Elimination Schemes.

(** An element reference: the child indices from the root down. *)
Definition path := list nat.

(** [element.getAttribute(k)] *)
Fixpoint getAttribute (k : string) (a : attrs) : option string :=
  match a with
  | [] => None
  | (k', v) :: r => if String.eqb k k' then Some v else getAttribute k r
  end.

(** [element.setAttribute(k, v)]: replaces the value of an attribute that
    is there, appends a new one otherwise. *)
Fixpoint setAttribute (k v : string) (a : attrs) : attrs :=
  match a with
  | [] => [(k, v)]
  | (k', v') :: r =>
      if String.eqb k k' then (k, v) :: r else (k', v') :: setAttribute k v r
  end.

(** The tokens of a [class] attribute: split on ASCII whitespace. *)
Definition is_ascii_space (c : ascii) : bool :=
  existsb (Nat.eqb (nat_of_ascii c)) [9; 10; 12; 13; 32].

Fixpoint tokens_aux (cur : string) (s : string) : list string :=
  match s with
  | EmptyString => if Str.is_empty cur then [] else [cur]
  | String c r =>
      if is_ascii_space c
      then (if Str.is_empty cur then tokens_aux "" r
            else cur :: tokens_aux "" r)
      else tokens_aux (String.append cur (String c "")) r
  end.

Definition tokens (s : string) : list string := tokens_aux "" s.

Definition has_class (c : string) (a : attrs) : bool :=
  match getAttribute "class" a with
  | Some v => Str.mem c (tokens v)
  | None => false
  end.

Definition has_id (i : string) (a : attrs) : bool :=
  match getAttribute "id" a with
  | Some v => String.eqb v i
  | None => false
  end.

(** The selectors the script uses: [.c], a tag name, [#i] (through
    [getElementById]) and [p > c]. *)
Inductive simple : Type :=
| ByClass (c : string)
| ByTag (t : string)
| ById (i : string).

Inductive selector : Type :=
| Sel (s : simple)
| Child (parent child : simple).

Definition matches_simple (s : simple) (t : string) (a : attrs) : bool :=
  match s with
  | ByClass c => has_class c a
  | ByTag t' => String.eqb t t'
  | ById i => has_id i a
  end.

(** Whether the element with tag [t] and attributes [a], child of the
    element [parent] (if any), matches the selector. *)
Definition matches (sel : selector) (parent : option (string * attrs))
    (t : string) (a : attrs) : bool :=
  match sel with
  | Sel s => matches_simple s t a
  | Child ps cs =>
      match parent with
      | Some (pt, pa) => matches_simple ps pt pa && matches_simple cs t a
      | None => false
      end
  end.

(** The first element of the subtree [n], in document order, that matches;
    [parent] is the parent element of [n]. *)
Fixpoint search (sel : selector) (parent : option (string * attrs))
    (n : node) {struct n} : option path :=
  match n with
  | Text _ => None
  | Elem t a ks =>
      if matches sel parent t a then Some []
      else
        (fix go (ks : list node) (i : nat) {struct ks} : option path :=
           match ks with
           | [] => None
           | k :: r =>
               match search sel (Some (t, a)) k with
               | Some p => Some (i :: p)
               | None => go r (S i)
               end
           end) ks 0
  end.

(** The same search through a list of siblings, the first one at index
    [i]. *)
Fixpoint search_children (sel : selector) (parent : option (string * attrs))
    (ks : list node) (i : nat) : option path :=
  match ks with
  | [] => None
  | k :: r =>
      match search sel parent k with
      | Some p => Some (i :: p)
      | None => search_children sel parent r (S i)
      end
  end.

(** The node a path refers to. *)
Fixpoint get (n : node) (p : path) : option node :=
  match p with
  | [] => Some n
  | i :: p' =>
      match n with
      | Elem _ _ ks =>
          match nth_error ks i with
          | Some k => get k p'
          | None => None
          end
      | Text _ => None
      end
  end.

Fixpoint update_nth (i : nat) (f : node -> node) (ks : list node) : list node :=
  match ks, i with
  | [], _ => []
  | k :: r, 0 => f k :: r
  | k :: r, S j => k :: update_nth j f r
  end.

(** The tree with the node at [p] replaced by [new]. *)
Fixpoint replace_at (p : path) (new : node) (n : node) : node :=
  match p with
  | [] => new
  | i :: p' =>
      match n with
      | Elem t a ks => Elem t a (update_nth i (replace_at p' new) ks)
      | Text _ => n
      end
  end.

(** [document.querySelector(sel)] on the tree with root [root]. *)
Definition document_querySelector (sel : selector) (root : node) : option path :=
  search sel None root.

(** [element.querySelector(sel)] for the element at [p]: its descendants,
    not itself. *)
Definition element_querySelector (p : path) (sel : selector) (root : node)
    : option path :=
  match get root p with
  | Some (Elem t a ks) =>
      match search_children sel (Some (t, a)) ks 0 with
      | Some q => Some (p ++ q)
      | None => None
      end
  | _ => None
  end.

(** [document.head]: the first [head] child of the [html] root. *)
Fixpoint first_head (ks : list node) (i : nat) : option path :=
  match ks with
  | [] => None
  | Elem t _ _ :: r => if String.eqb t "head" then Some [i] else first_head r (S i)
  | Text _ :: r => first_head r (S i)
  end.

Definition document_head (root : node) : option path :=
  match root with
  | Elem t _ ks => if String.eqb t "html" then first_head ks 0 else None
  | Text _ => None
  end.

(** [parent.append(child)] for the element at [p]. *)
Definition append_at (p : path) (child : node) (root : node) : node :=
  match get root p with
  | Some (Elem t a ks) => replace_at p (Elem t a (ks ++ [child])) root
  | _ => root
  end.

(** A parsed HTML document: an [html] element whose first child is the
    [head]. *)
Record document : Type := {
  html_attrs : attrs;
  head_attrs : attrs;
  head_children : list node;
  html_rest : list node
}.

Definition tree (d : document) : node :=
  Elem "html" (html_attrs d)
       (Elem "head" (head_attrs d) (head_children d) :: html_rest d).

(** ** JavaScript values *)

(** A parsed JSON value; the members of an object in the order of the
    text.  Numbers are integers. *)
#[local] Unset Elimination Schemes.
Inductive json : Type :=
| JNull
| JBool (b : bool)
| JNum (n : Z)
| JStr (s : string)
| JArr (items : list json)
| JObj (members : list (string * json)).
#[local] Set Elimination Schemes.

Inductive jsval : Type :=
| Undefined
| J (v : json).

Definition null : jsval := J JNull.

(** [!!v] *)
Definition truthy (v : jsval) : bool :=
  match v with
  | Undefined => false
  | J JNull => false
  | J (JBool b) => b
  | J (JNum n) => negb (Z.eqb n 0)
  | J (JStr s) => negb (Str.is_empty s)
  | J (JArr _) => true
  | J (JObj _) => true
  end.

(** The own property [k] of a parsed object: of two members with one key
    the later one wins. *)
Fixpoint member (k : string) (ms : list (string * json)) : option json :=
  match ms with
  | [] => None
  | (k', v) :: r =>
      match member k r with
      | Some w => Some w
      | None => if String.eqb k k' then Some v else None
      end
  end.

(** A string or [null], as a value. *)
Definition of_option_string (o : option string) : jsval :=
  match o with
  | Some s => J (JStr s)
  | None => null
  end.

(** The type of the entries of the list the provider returns. *)
Record ServiceData : Type := {
  name : string;
  url : string;
  icon : string
}.

(** ** The host *)

Inductive fetch_result : Type :=
| NetworkError                 (* [fetch] rejects *)
| BadJson                      (* [response.json()] rejects *)
| Body (v : json).             (* the parsed body *)

Record host : Type := {
  (** [element.href] of the element at a path of the page; [None] is
      [undefined] *)
  href : node -> path -> option string;
  (** [element.innerText] *)
  innerText : node -> path -> option string;
  (** [window.location.href] *)
  location_href : string;
  (** the answer of the network to a GET of a URL *)
  network : string -> fetch_result;
  (** [v > 0] for a value [v] that is not a number *)
  gt_zero : json -> bool;
  (** [globalThis.getServices]; [None] when no script supplied it; a
      result [None] is a falsy return value *)
  getServices :
    option (string -> option string -> jsval -> option (list ServiceData))
}.

(** ** Effects: the page, the trace and exceptions *)

Inductive exn : Type :=
| TypeError
| FetchRejected
| JsonRejected.

Inductive diagnostic : Type :=
| MovieNotFound                    (* 'Movie not found on TMDb' *)
| ErrorFetching (e : exn)          (* 'Error fetching TMDb data:', error *)
| FailedToRetrieve.                (* 'Failed to retrieve query, IMDb ID, or TMDb ID.' *)

Inductive property : Type := Href | InnerText.

(** What the script does to its environment, in the order it does it. *)
Inductive event : Type :=
| DomHead                                           (* document.head *)
| DomQuery (scope : option path) (sel : selector)   (* querySelector, getElementById *)
| DomRead (p : path) (pr : property)                (* element.href, element.innerText *)
| DomCreate (tag : string)                          (* document.createElement *)
| DomCreateText (data : string)                     (* document.createTextNode *)
| DomAppend (p : path) (child : node)               (* element.append on the page *)
| DomReplace (p : path) (new : node)                (* element.replaceWith *)
| NetRequest (u : string)                           (* fetch *)
| ConsoleError (d : diagnostic)                     (* console.error *)
| ProviderCall (query : string) (imdbId : option string) (tmdbId : jsval).

Inductive outcome (A : Type) : Type :=
| Ok (a : A)
| Throw (e : exn).
Arguments Ok {A} a.
Arguments Throw {A} e.

(** The result of running a piece of the script on a page: how it ended,
    the page it left and the events it produced. *)
Record run (A : Type) : Type := Run {
  out : outcome A;
  page : node;
  log : list event
}.
Arguments Run {A} out page log.
Arguments out {A} r.
Arguments page {A} r.
Arguments log {A} r.

Definition M (A : Type) : Type := node -> run A.

Definition ret {A} (a : A) : M A := fun d => Run (Ok a) d [].

Definition throw {A} (e : exn) : M A := fun d => Run (Throw e) d [].

Definition bind {A B} (m : M A) (k : A -> M B) : M B :=
  fun d =>
    let r := m d in
    match out r with
    | Ok a => let r' := k a (page r) in Run (out r') (page r') (log r ++ log r')
    | Throw e => Run (Throw e) (page r) (log r)
    end.

(** [try { m } catch (e) { handler e }] *)
Definition try_catch {A} (m : M A) (handler : exn -> M A) : M A :=
  fun d =>
    let r := m d in
    match out r with
    | Ok a => r
    | Throw e =>
        let r' := handler e (page r) in Run (out r') (page r') (log r ++ log r')
    end.

Notation "x <- m ;; k" := (bind m (fun x => k))
  (at level 61, m at next level, right associativity).
Notation "m ;;; k" := (bind m (fun _ => k))
  (at level 61, right associativity).

Definition emit (e : event) : M unit := fun d => Run (Ok tt) d [e].

(** [x?.f]: nothing is evaluated when [x] is null or undefined. *)
Definition opt_chain {A B} (x : option A) (f : A -> M (option B)) : M (option B) :=
  match x with
  | Some a => f a
  | None => ret None
  end.

Fixpoint for_each {A} (l : list A) (body : A -> M unit) : M unit :=
  match l with
  | [] => ret tt
  | x :: r => body x ;;; for_each r body
  end.

(** ** The script *)

Section Script.

Variable h : host.

(** *** The DOM and network primitives *)

Definition querySelector (sel : selector) : M (option path) :=
  fun d => Run (Ok (document_querySelector sel d)) d [DomQuery None sel].

Definition querySelectorIn (p : path) (sel : selector) : M (option path) :=
  fun d => Run (Ok (element_querySelector p sel d)) d [DomQuery (Some p) sel].

Definition getElementById (i : string) : M (option path) :=
  querySelector (Sel (ById i)).

Definition head : M (option path) :=
  fun d => Run (Ok (document_head d)) d [DomHead].

Definition read_href (p : path) : M (option string) :=
  fun d => Run (Ok (href h d p)) d [DomRead p Href].

Definition read_innerText (p : path) : M (option string) :=
  fun d => Run (Ok (innerText h d p)) d [DomRead p InnerText].

Definition createTextNode (data : string) : M node :=
  emit (DomCreateText data) ;;; ret (Text data).

Definition append (p : path) (child : node) : M unit :=
  fun d => Run (Ok tt) (append_at p child d) [DomAppend p child].

Definition replaceWith (p : path) (new : node) : M unit :=
  fun d => Run (Ok tt) (replace_at p new d) [DomReplace p new].

Definition console_error (x : diagnostic) : M unit := emit (ConsoleError x).

(** [await fetch(u)] followed by [await response.json()] *)
Definition fetch_json (u : string) : M json :=
  emit (NetRequest u) ;;;
  match network h u with
  | NetworkError => throw FetchRejected
  | BadJson => throw JsonRejected
  | Body v => ret v
  end.

(** [v.k] for a name [k] that no prototype defines *)
Definition get_property (v : jsval) (k : string) : M jsval :=
  match v with
  | Undefined | J JNull => throw TypeError
  | J (JObj ms) =>
      ret (match member k ms with Some w => J w | None => Undefined end)
  | J _ => ret Undefined
  end.

(** [v.length > 0] *)
Definition length_gt_zero (v : jsval) : M bool :=
  match v with
  | Undefined | J JNull => throw TypeError
  | J (JArr l) => ret (negb (Nat.eqb (List.length l) 0))
  | J (JStr s) => ret (negb (Str.is_empty s))
  | J (JObj ms) =>
      ret (match member "length" ms with
           | Some (JNum n) => Z.ltb 0 n
           | Some w => gt_zero h w
           | None => false
           end)
  | J _ => ret false
  end.

(** [v[0]]; of a string, its first character *)
Definition get_first (v : jsval) : M jsval :=
  match v with
  | Undefined | J JNull => throw TypeError
  | J (JArr l) => ret (match l with x :: _ => J x | [] => Undefined end)
  | J (JStr s) =>
      ret (match Str.chars s with ch :: _ => J (JStr ch) | [] => Undefined end)
  | J (JObj ms) =>
      ret (match member "0" ms with Some w => J w | None => Undefined end)
  | J _ => ret Undefined
  end.

(** *** The functions of [content.js] *)

Definition getImdbID : M (option string) :=
  button <- querySelector (Sel (ByClass "micro-button")) ;;
  url <- opt_chain button read_href ;;
  let id := match url with
            | Some u => nth_error (Str.split_slash u) 4
            | None => None
            end in
  ret (match id with
       | Some i => if Str.startsWith "tt" i then Some i else None
       | None => None
       end).

Definition getTmdbID : M (option string) :=
  button <- querySelector (Sel (ByClass "tmdb-button")) ;;
  url <- opt_chain button read_href ;;
  let id := match url with
            | Some u => Str.pop (Str.split_slash u)
            | None => None
            end in
  ret (match id with
       | Some i =>
           if negb (Str.is_empty i) && Str.test_digits i then Some i else None
       | None => None
       end).

Definition getQuery : M string :=
  details <- querySelector (Sel (ByClass "details")) ;;
  h1 <- opt_chain details (fun d => querySelectorIn d (Sel (ByTag "h1"))) ;;
  title <- opt_chain h1 read_innerText ;;
  a <- opt_chain details
         (fun d => querySelectorIn d (Child (ByClass "releaseyear") (ByTag "a"))) ;;
  year <- opt_chain a read_innerText ;;
  let rawQuery := match title with Some t => t | None => "" end in
  ret (Str.replace_spaces rawQuery).

Definition getLetterboxdFilmName : M (option string) :=
  let url := location_href h in
  ret (Str.match_film url).

Definition apiKey : string := "e5bb3f8f15d40063752ff87b4c360b05".

Definition apiUrl (filmName : string) : string :=
  String.concat ""
    [ "https://api.themoviedb.org/3/search/movie?api_key="; apiKey;
      "&query="; Str.encodeURIComponent filmName ].

Definition fetchTmdbIdFromLetterboxd (filmName : string) : M jsval :=
  try_catch
    (data <- fetch_json (apiUrl filmName) ;;
     results <- get_property (J data) "results" ;;
     nonempty <- (if truthy results then length_gt_zero results
                  else ret false) ;;
     if nonempty then
       first <- get_first results ;;
       get_property first "id"
     else
       console_error MovieNotFound ;;; ret null)
    (fun error => console_error (ErrorFetching error) ;;; ret null).

Definition createElement (tag : string) (attributes : attrs)
    (children : list node) : M node :=
  emit (DomCreate tag) ;;;
  ret (Elem tag
         (fold_left (fun a kv => setAttribute (fst kv) (snd kv) a) attributes [])
         children).

Definition createServiceIcon (iconURL : string) : M node :=
  createElement "img" [("src", iconURL); ("width", "20"); ("height", "20")] [].

Definition addService (serviceData : ServiceData) : M unit :=
  services <- querySelector (Sel (ByClass "services")) ;;
  match services with
  | None => ret tt
  | Some section =>
      img <- createServiceIcon (icon serviceData) ;;
      brand <- createElement "span" [("class", "brand")] [img] ;;
      text <- createTextNode (name serviceData) ;;
      title <- createElement "span" [("class", "title")] [text] ;;
      serviceLink <- createElement "a"
        [("href", url serviceData); ("target", "_blank"); ("class", "label")]
        [brand; title] ;;
      serviceItem <- createElement "p" [("class", "service")] [serviceLink] ;;
      append section serviceItem
  end.

Definition initPage : M unit :=
  text <- createTextNode ".services > .service {display: flex !important;}" ;;
  style <- createElement "style" [] [text] ;;
  hd <- head ;;
  match hd with
  | Some p => append p style
  | None => throw TypeError
  end ;;;
  servicesSection <- createElement "section" [("class", "services")] [] ;;
  watchSection <- getElementById "watch" ;;
  match watchSection with
  | Some w => replaceWith w servicesSection
  | None => ret tt
  end.

(** [globalThis.getServices?.(query, imdbId, tmdbId) || []] *)
Definition call_getServices (query : string) (imdbId : option string)
    (tmdbId : jsval) : M (list ServiceData) :=
  match getServices h with
  | Some f =>
      emit (ProviderCall query imdbId tmdbId) ;;;
      ret (match f query imdbId tmdbId with Some l => l | None => [] end)
  | None => ret []
  end.

(** The variable [fetchedTmdbId] of the load handler: the TMDb ID of the
    page, or the one looked up when the page has none. *)
Definition fetchedTmdbId (tmdbId : option string) : M jsval :=
  if negb (truthy (of_option_string tmdbId)) then
    filmName <- getLetterboxdFilmName ;;
    match filmName with
    | Some f =>
        if truthy (J (JStr f)) then fetchTmdbIdFromLetterboxd f
        else ret (of_option_string tmdbId)
    | None => ret (of_option_string tmdbId)
    end
  else ret (of_option_string tmdbId).

(** The test [!query || (!imdbId && !fetchedTmdbId)] of the load handler. *)
Definition nothing_to_show (query : string) (imdbId : option string)
    (fetched : jsval) : bool :=
  negb (truthy (J (JStr query)))
  || (negb (truthy (of_option_string imdbId)) && negb (truthy fetched)).

(** [window.onload] *)
Definition onload : M unit :=
  initPage ;;;
  query <- getQuery ;;
  imdbId <- getImdbID ;;
  tmdbId <- getTmdbID ;;
  fetched <- fetchedTmdbId tmdbId ;;
  if nothing_to_show query imdbId fetched
  then console_error FailedToRetrieve
  else
    services <- call_getServices query imdbId fetched ;;
    for_each services addService.

End Script.

(** ** Induction on trees, and paths that part *)

Section NodeInduction.

Variable P : node -> Prop.
Hypothesis P_text : forall s, P (Text s).
Hypothesis P_elem : forall t a ks, Forall P ks -> P (Elem t a ks).

Fixpoint node_ind (n : node) : P n :=
  match n with
  | Text s => P_text s
  | Elem t a ks =>
      P_elem t a ks
        ((fix all (l : list node) : Forall P l :=
            match l with
            | [] => Forall_nil P
            | k :: r => Forall_cons k (node_ind k) (all r)
            end) ks)
  end.

End NodeInduction.

(** Two paths that part at some index: neither is above the other. *)
Fixpoint apart (p q : path) : bool :=
  match p, q with
  | i :: p', j :: q' => if Nat.eqb i j then apart p' q' else true
  | _, _ => false
  end.

(** ** Reading the trace *)

Definition is_read (e : event) : bool :=
  match e with
  | DomHead | DomQuery _ _ | DomRead _ _ => true
  | _ => false
  end.

Definition is_mutation (e : event) : bool :=
  match e with
  | DomAppend _ _ | DomReplace _ _ => true
  | _ => false
  end.

(** The URLs requested from the network. *)
Fixpoint requests (l : list event) : list string :=
  match l with
  | [] => []
  | NetRequest u :: r => u :: requests r
  | _ :: r => requests r
  end.

(** The console diagnostics. *)
Fixpoint diagnostics (l : list event) : list diagnostic :=
  match l with
  | [] => []
  | ConsoleError x :: r => x :: diagnostics r
  | _ :: r => diagnostics r
  end.

(** The calls of the provider, with their arguments. *)
Fixpoint provider_calls (l : list event)
    : list (string * option string * jsval) :=
  match l with
  | [] => []
  | ProviderCall q i t :: r => (q, i, t) :: provider_calls r
  | _ :: r => provider_calls r
  end.

(** The nodes appended to the page, with the element they went to. *)
Fixpoint appends (l : list event) : list (path * node) :=
  match l with
  | [] => []
  | DomAppend p c :: r => (p, c) :: appends r
  | _ :: r => appends r
  end.

(** No read of the page comes after a mutation of the page. *)
Fixpoint reads_before_mutations (l : list event) : bool :=
  match l with
  | [] => true
  | e :: r =>
      if is_mutation e then forallb (fun e' => negb (is_read e')) r
      else reads_before_mutations r
  end.

(** ** What the page holds *)

(** No element of the tree matches [s]. *)
Definition absent (s : simple) (d : node) : Prop :=
  forall p t a ks, get d p = Some (Elem t a ks) -> matches_simple s t a = false.

(** The text of the first [h1] in the details container. *)
Definition page_title (h : host) (d : node) : option string :=
  match document_querySelector (Sel (ByClass "details")) d with
  | Some c =>
      match element_querySelector c (Sel (ByTag "h1")) d with
      | Some p => innerText h d p
      | None => None
      end
  | None => None
  end.

(** The text of the first link in a [.releaseyear] of the details
    container. *)
Definition page_year (h : host) (d : node) : option string :=
  match document_querySelector (Sel (ByClass "details")) d with
  | Some c =>
      match element_querySelector c
              (Child (ByClass "releaseyear") (ByTag "a")) d with
      | Some p => innerText h d p
      | None => None
      end
  | None => None
  end.

(** The paragraph [serviceItem] that [addService] builds for a descriptor,
    written out. *)
Definition serviceItem (sd : ServiceData) : node :=
  Elem "p" [("class", "service")]
    [ Elem "a" [("href", url sd); ("target", "_blank"); ("class", "label")]
        [ Elem "span" [("class", "brand")]
            [ Elem "img" [("src", icon sd); ("width", "20"); ("height", "20")]
                [] ];
          Elem "span" [("class", "title")] [Text (name sd)] ] ].

(** The [id] member of a value that is not [null]: [x.id]. *)
Definition id_member (x : json) : jsval :=
  match x with
  | JObj ms => match member "id" ms with Some v => J v | None => Undefined end
  | _ => Undefined
  end.

(** ** The steps of the load handler *)

(** The two nodes [initPage] creates. *)
Definition style_node : node :=
  Elem "style" [] [Text ".services > .service {display: flex !important;}"].

Definition services_section : node := Elem "section" [("class", "services")] [].

(** The document with the style element at the end of its head. *)
Definition styled (doc : document) : node :=
  Elem "html" (html_attrs doc)
       (Elem "head" (head_attrs doc) (head_children doc ++ [style_node])
        :: html_rest doc).

(** The events of [initPage] up to the search for the [#watch] section. *)
Definition init_events : list event :=
  [ DomCreateText ".services > .service {display: flex !important;}";
    DomCreate "style"; DomHead; DomAppend [0] style_node;
    DomCreate "section"; DomQuery None (Sel (ById "watch")) ].

(** The events of one [addService] that appends to the section at [p]. *)
Definition service_events (p : path) (sd : ServiceData) : list event :=
  [ DomQuery None (Sel (ByClass "services"));
    DomCreate "img"; DomCreate "span"; DomCreateText (name sd);
    DomCreate "span"; DomCreate "a"; DomCreate "p";
    DomAppend p (serviceItem sd) ].

(** The list the handler goes through:
    [globalThis.getServices?.(query, imdbId, fetched) || []]. *)
Definition provided (h : host) (query : string) (imdbId : option string)
    (fetched : jsval) : list ServiceData :=
  match getServices h with
  | Some f => match f query imdbId fetched with Some l => l | None => [] end
  | None => []
  end.

(** The call of the provider, when there is one. *)
Definition call_events (h : host) (query : string) (imdbId : option string)
    (fetched : jsval) : list event :=
  match getServices h with
  | Some _ => [ProviderCall query imdbId fetched]
  | None => []
  end.

(** The end of the load handler, from the test of what was found on. *)
Definition render (h : host) (query : string) (imdbId : option string)
    (fetched : jsval) : M unit :=
  if nothing_to_show query imdbId fetched
  then console_error FailedToRetrieve
  else
    services <- call_getServices h query imdbId fetched ;;
    for_each services addService.

(** The events of the lookup: the network and the console. *)
Definition is_lookup (e : event) : bool :=
  match e with
  | NetRequest _ | ConsoleError _ => true
  | _ => false
  end.

(** The events of the rendering: the diagnostic or the call of the
    provider, and for each service the query for the section, the
    creation of its nodes and the append. *)
Definition is_rendering (e : event) : bool :=
  match e with
  | ConsoleError FailedToRetrieve => true
  | ProviderCall _ _ _ => true
  | DomQuery None (Sel (ByClass c)) => String.eqb c "services"
  | DomCreate _ | DomCreateText _ | DomAppend _ _ => true
  | _ => false
  end.

(** ** A browser and a film page to run the script on *)

Fixpoint textContent (n : node) : string :=
  match n with
  | Text s => s
  | Elem _ _ ks => String.concat "" (map textContent ks)
  end.

(** A host whose links report their [href] attribute and whose elements
    render as their text. *)
Definition browser (location : string) (net : string -> fetch_result)
    (provider :
       option (string -> option string -> jsval -> option (list ServiceData)))
    : host := {|
  href := fun d p =>
    match get d p with
    | Some (Elem t a _) =>
        if String.eqb t "a"
        then Some (match getAttribute "href" a with Some v => v | None => "" end)
        else None
    | _ => None
    end;
  innerText := fun d p =>
    match get d p with
    | Some n => Some (textContent n)
    | None => None
    end;
  location_href := location;
  network := net;
  gt_zero := fun _ => false;
  getServices := provider
|}.

Definition film_details : node :=
  Elem "section" [("class", "film-header details")]
    [ Elem "h1" [("class", "headline-1")] [Text "Heat"];
      Elem "div" [("class", "releaseyear")]
        [Elem "a" [("href", "/films/year/1995/")] [Text "1995"]] ].

Definition imdb_button : node :=
  Elem "a" [("href", "http://www.imdb.com/title/tt0113277/maindetails");
            ("class", "micro-button track-event")] [Text "IMDb"].

Definition tmdb_button : node :=
  Elem "a" [("href", "https://www.themoviedb.org/movie/949");
            ("class", "micro-button tmdb-button")] [Text "TMDb"].

(** A film page with the details, both buttons and a [#watch] section. *)
Definition film_page : document := {|
  html_attrs := [];
  head_attrs := [];
  head_children := [Elem "title" [] [Text "Heat (1995)"]];
  html_rest :=
    [ Elem "body" [("class", "film")]
        [ film_details; imdb_button; tmdb_button;
          Elem "section" [("id", "watch")] [Text "Where to watch"] ] ]
|}.

(** The same page without a [#watch] section. *)
Definition film_page_without_watch : document := {|
  html_attrs := [];
  head_attrs := [];
  head_children := [];
  html_rest :=
    [ Elem "body" [("class", "film")] [film_details; imdb_button; tmdb_button] ]
|}.

(** A page whose TMDb button is inside the [#watch] section. *)
Definition film_page_button_in_watch : document := {|
  html_attrs := [];
  head_attrs := [];
  head_children := [];
  html_rest :=
    [ Elem "body" [("class", "film")]
        [ film_details; imdb_button;
          Elem "section" [("id", "watch")] [tmdb_button] ] ]
|}.

(** A tree that no parser produces: an [html] element without a head. *)
Definition headless : node := Elem "html" [] [Elem "body" [] []].

(** A page with nothing on it. *)
Definition blank_page : document := {|
  html_attrs := [];
  head_attrs := [];
  head_children := [];
  html_rest := [Elem "body" [] []]
|}.

Definition film_url : string := "https://letterboxd.com/film/heat-1995/".

Definition one_result (id : Z) : json :=
  JObj [("page", JNum 1); ("results", JArr [JObj [("id", JNum id)]])].

Definition one_service (query : string) (imdbId : option string)
    (tmdbId : jsval) : option (list ServiceData) :=
  Some [ {| name := "Example";
            url := String.append "https://example.org/search/" query;
            icon := "https://example.org/icon.png" |} ].

Definition film_host : host :=
  browser film_url (fun _ => Body (one_result 949)) (Some one_service).


(** A network that knows the film under another ID. *)
Definition other_id_host : host :=
  browser film_url (fun _ => Body (one_result 603)) (Some one_service).

(** A browser on a film URL whose network is down. *)
Definition offline_host : host :=
  browser film_url (fun _ => NetworkError) (Some one_service).

(** ** Words for further properties *)

(** A string without a slash: one segment of a URL. *)
Fixpoint slash_free (s : string) : bool :=
  match s with
  | EmptyString => true
  | String c r => negb (Ascii.eqb c "/") && slash_free r
  end.

(** [segments.join("/")] *)
Definition join_slash (segments : list string) : string :=
  String.concat "/" segments.

(** A string of continuation bytes. *)
Fixpoint all_cont (s : string) : bool :=
  match s with
  | EmptyString => true
  | String c r => Str.is_cont c && all_cont r
  end.

(** A byte with continuation bytes after it, as [Str.chars] cuts them. *)
Definition is_group (g : string) : bool :=
  match g with
  | EmptyString => false
  | String _ r => all_cont r
  end.

(** A group that starts with a byte that is no continuation byte. *)
Definition is_lead_group (g : string) : bool :=
  match g with
  | EmptyString => false
  | String c r => negb (Str.is_cont c) && all_cont r
  end.

(** The strings of a list, one after the other. *)
Definition flatten (l : list string) : string :=
  fold_right String.append "" l.




(** The characters of the query string that have a meaning in a URL. *)
Definition url_delimiters : list ascii :=
  [ "&"%char; "="%char; "?"%char; "#"%char; "/"%char; " "%char; "+"%char ].

(** * Properties *)

(** ** The string functions on examples *)

Example split_imdb :
  Str.split_slash "http://www.imdb.com/title/tt0113277/maindetails"
  = ["http:"; ""; "www.imdb.com"; "title"; "tt0113277"; "maindetails"].
Proof. reflexivity. Qed.

Example replace_spaces_ex :
  Str.replace_spaces
    (String.concat "" [" The  Matrix"; Str.bytes [194; 160; 9]; "Reloaded "])
  = "-The-Matrix-Reloaded-".
Proof. reflexivity. Qed.

Example match_film_ex :
  Str.match_film "https://letterboxd.com/film/heat-1995/reviews/" = Some "heat-1995".
Proof. reflexivity. Qed.

Example match_film_none : Str.match_film "https://letterboxd.com/film/" = None.
Proof. reflexivity. Qed.

Example encode_ex : Str.encodeURIComponent "a b&c-d" = "a%20b%26c-d".
Proof. reflexivity. Qed.

(** ** Facts about strings *)

Module StrFacts.
Import Str.

Lemma split_slash_nonempty (s : string) : split_slash s <> [].
Proof.
  induction s as [|c r IH]; simpl; [discriminate|].
  destruct (Ascii.eqb c "/"); [discriminate|].
  destruct (split_slash r); discriminate.
Qed.

Lemma pop_last (l : list string) (x : string) :
  pop l = Some x -> exists front, l = front ++ [x].
Proof.
  induction l as [|y r IH]; [discriminate|].
  destruct r as [|z r'].
  - simpl. intros [= ->]. now exists [].
  - intros E. destruct (IH E) as [front ->]. now exists (y :: front).
Qed.

Lemma is_digit_range (c : ascii) :
  is_digit c = true -> 48 <= nat_of_ascii c <= 57.
Proof.
  unfold is_digit. rewrite andb_true_iff, !Nat.leb_le. tauto.
Qed.

Lemma all_digits_Forall (s : string) :
  all_digits s = true ->
  Forall (fun c => 48 <= nat_of_ascii c <= 57) (list_ascii_of_string s).
Proof.
  induction s as [|c r IH]; simpl; [constructor|].
  rewrite andb_true_iff. intros [Hc Hr].
  constructor; [now apply is_digit_range | now apply IH].
Qed.

Lemma is_empty_false (s : string) : is_empty s = false <-> s <> "".
Proof. destruct s; simpl; split; congruence. Qed.

Lemma strip_prefix_app (lit s r : string) :
  strip_prefix lit s = Some r -> s = String.append lit r.
Proof.
  revert s. induction lit as [|a lit IH]; intros s; simpl.
  - now intros [= ->].
  - destruct s as [|b s]; [discriminate|].
    destruct (Ascii.eqb_spec a b) as [->|]; [|discriminate].
    intros E. now rewrite (IH _ E).
Qed.

Lemma startsWith_tt (s : string) :
  startsWith "tt" s = true -> exists r, s = String "t" (String "t" r).
Proof.
  unfold startsWith.
  destruct (strip_prefix "tt" s) as [r|] eqn:E; [|discriminate].
  intros _. exists r. now rewrite (strip_prefix_app _ _ _ E).
Qed.

Lemma until_slash_app (s : string) :
  exists post, s = String.append (until_slash s) post
               /\ (post = "" \/ exists q, post = String "/" q).
Proof.
  induction s as [|c r [post [E H]]]; simpl.
  - exists "". auto.
  - destruct (Ascii.eqb_spec c "/") as [->|].
    + exists (String "/" r). split; [reflexivity|]. right. now exists r.
    + exists post. simpl. split; [now rewrite <- E | exact H].
Qed.

Lemma until_slash_no_slash (s : string) :
  Forall (fun c => c <> "/"%char) (list_ascii_of_string (until_slash s)).
Proof.
  induction s as [|c r IH]; simpl; [constructor|].
  destruct (Ascii.eqb_spec c "/"); simpl; [constructor|].
  now constructor.
Qed.

Lemma substring_drop (a b : string) :
  substring (String.length a) (String.length (String.append a b) - String.length a)
            (String.append a b) = b.
Proof.
  induction a as [|c a IH]; simpl.
  - rewrite Nat.sub_0_r. induction b as [|d b IHb]; simpl; [reflexivity|].
    now rewrite IHb.
  - exact IH.
Qed.

Lemma append_empty (s : string) : String.append s "" = s.
Proof. induction s; simpl; congruence. Qed.

Lemma chars_concat (s : string) : String.concat "" (chars s) = s.
Proof.
  assert (G : forall l, String.concat "" l = fold_right String.append "" l).
  { induction l as [|x [|y l] IH]; simpl; [reflexivity| |].
    - now rewrite append_empty.
    - simpl in IH. now rewrite IH. }
  rewrite G. induction s as [|c r IH]; simpl; [reflexivity|].
  destruct (chars r) as [|g gs].
  - simpl in *. now rewrite <- IH.
  - destruct (starts_with_cont r); simpl in *; now rewrite IH.
Qed.

Lemma chars_head (s ch : string) (rest : list string) :
  chars s = ch :: rest -> exists post, s = String.append ch post.
Proof.
  intros E. exists (String.concat "" rest).
  rewrite <- (chars_concat s) at 1. rewrite E.
  destruct rest as [|y l]; simpl.
  - now rewrite append_empty.
  - reflexivity.
Qed.

Lemma match_dot_app (s r : string) :
  match_dot s = Some r -> exists ch, s = String.append ch r /\ ch <> "".
Proof.
  unfold match_dot. destruct (chars s) as [|ch rest] eqn:E; [discriminate|].
  destruct (_ && _); [|discriminate]. intros [= <-].
  destruct (chars_head _ _ _ E) as [post ->]. exists ch.
  rewrite substring_drop. split; [reflexivity|].
  intros ->. destruct post as [|c post]; simpl in E; [discriminate|].
  destruct (chars post); [discriminate|].
  destruct (starts_with_cont post); discriminate.
Qed.

(** What a match of the film pattern says about the URL. *)
Lemma film_pattern_here_sound (s g : string) :
  film_pattern_here s = Some g ->
  exists ch post,
    s = String.concat "" ["letterboxd"; ch; "com/film/"; g; post]
    /\ g <> ""
    /\ Forall (fun c => c <> "/"%char) (list_ascii_of_string g)
    /\ (post = "" \/ exists q, post = String "/" q).
Proof.
  unfold film_pattern_here.
  destruct (strip_prefix "letterboxd" s) as [s1|] eqn:E1; [|discriminate].
  destruct (match_dot s1) as [s2|] eqn:E2; [|discriminate].
  destruct (strip_prefix "com/film/" s2) as [s3|] eqn:E3; [|discriminate].
  destruct (is_empty (until_slash s3)) eqn:E4; [discriminate|].
  intros [= <-].
  apply strip_prefix_app in E1, E3.
  destruct (match_dot_app _ _ E2) as [ch [E2' _]].
  destruct (until_slash_app s3) as [post [E5 H5]].
  exists ch, post. repeat split.
  - rewrite E1, E2', E3. rewrite E5 at 1.
    cbn [String.concat]. reflexivity.
  - now apply is_empty_false.
  - apply until_slash_no_slash.
  - exact H5.
Qed.

Lemma match_film_sound (s g : string) :
  match_film s = Some g ->
  exists pre ch post,
    s = String.concat "" [pre; "letterboxd"; ch; "com/film/"; g; post]
    /\ g <> ""
    /\ Forall (fun c => c <> "/"%char) (list_ascii_of_string g)
    /\ (post = "" \/ exists q, post = String "/" q).
Proof.
  induction s as [|c r IH].
  - simpl. discriminate.
  - cbn [match_film].
    destruct (film_pattern_here (String c r)) as [g'|] eqn:E.
    + intros [= ->]. destruct (film_pattern_here_sound _ _ E) as (ch & post & Es & H).
      exists "", ch, post. split; [|exact H]. rewrite Es. reflexivity.
    + intros Hm. destruct (IH Hm) as (pre & ch & post & Es & H).
      exists (String c pre), ch, post. split; [|exact H].
      rewrite Es. reflexivity.
Qed.



Lemma chars_nonempty (c : ascii) (s : string) : chars (String c s) <> [].
Proof.
  simpl. destruct (chars s); [discriminate|].
  destruct (starts_with_cont s); discriminate.
Qed.

End StrFacts.

(** ** Facts about the tree *)

(** ** Facts about the tree *)

Lemma search_Elem sel parent t a ks :
  search sel parent (Elem t a ks)
  = if matches sel parent t a then Some []
    else search_children sel (Some (t, a)) ks 0.
Proof.
  simpl. destruct (matches sel parent t a); [reflexivity|].
  generalize 0. induction ks as [|k r IH]; intros i; [reflexivity|].
  simpl. destruct (search sel (Some (t, a)) k); [reflexivity|]. apply IH.
Qed.

Lemma search_children_found sel parent ks off q :
  search_children sel parent ks off = Some q ->
  exists i p k,
    q = (off + i) :: p /\ nth_error ks i = Some k
    /\ search sel parent k = Some p
    /\ forall j kj, j < i -> nth_error ks j = Some kj ->
                    search sel parent kj = None.
Proof.
  revert off. induction ks as [|k r IH]; intros off; simpl; [discriminate|].
  destruct (search sel parent k) as [p|] eqn:E.
  - intros [= <-]. exists 0, p, k. rewrite Nat.add_0_r.
    repeat split; auto. intros j kj Hj. lia.
  - intros H. destruct (IH _ H) as (i & p & k' & -> & Hn & Hs & Hb).
    exists (S i), p, k'. repeat split; auto.
    + f_equal. lia.
    + intros [|j] kj Hj; simpl.
      * now intros [= <-].
      * apply Hb. lia.
Qed.

Lemma search_children_first sel parent ks off i p k :
  nth_error ks i = Some k ->
  search sel parent k = Some p ->
  (forall j kj, j < i -> nth_error ks j = Some kj ->
                search sel parent kj = None) ->
  search_children sel parent ks off = Some ((off + i) :: p).
Proof.
  revert off i. induction ks as [|k0 r IH]; intros off [|i]; simpl;
    try discriminate.
  - intros [= ->] -> _. now rewrite Nat.add_0_r.
  - intros Hn Hs Hb. rewrite (Hb 0 k0); [|lia|reflexivity].
    rewrite (IH (S off) i); auto.
    + f_equal. f_equal. lia.
    + intros j kj Hj. apply (Hb (S j)). lia.
Qed.

Lemma search_children_none sel parent ks off :
  search_children sel parent ks off = None ->
  forall k, In k ks -> search sel parent k = None.
Proof.
  revert off. induction ks as [|k0 r IH]; intros off; simpl; [tauto|].
  destruct (search sel parent k0) eqn:E; [discriminate|].
  intros H k [<-|Hin]; [exact E | eauto].
Qed.

(** A search that succeeds returns the path of an element that matches. *)
Lemma search_sound s n : forall parent p,
  search (Sel s) parent n = Some p ->
  exists t a ks, get n p = Some (Elem t a ks) /\ matches_simple s t a = true.
Proof.
  induction n as [d|t a ks IH] using node_ind; intros parent p.
  - discriminate.
  - rewrite search_Elem. simpl matches.
    destruct (matches_simple s t a) eqn:Em.
    + intros [= <-]. now exists t, a, ks.
    + intros H. apply search_children_found in H.
      destruct H as (i & q & k & -> & Hn & Hs & _). simpl.
      rewrite Hn. rewrite Forall_forall in IH.
      apply (IH k (nth_error_In _ _ Hn) _ _ Hs).
Qed.

(** A search that fails means that no element of the tree matches. *)
Lemma search_complete s n : forall parent,
  search (Sel s) parent n = None ->
  forall p t a ks, get n p = Some (Elem t a ks) -> matches_simple s t a = false.
Proof.
  induction n as [d|t a ks IH] using node_ind; intros parent.
  - intros _ [|i p] t a ks; simpl; discriminate.
  - rewrite search_Elem. simpl matches.
    destruct (matches_simple s t a) eqn:Em; [discriminate|].
    intros H [|i p] t' a' ks'; simpl.
    + now intros [= <- <- <-].
    + destruct (nth_error ks i) as [k|] eqn:Hn; [|discriminate].
      rewrite Forall_forall in IH. apply nth_error_In in Hn.
      apply (IH k Hn (Some (t, a))).
      apply (search_children_none _ _ _ _ H k Hn).
Qed.

Lemma absent_querySelector (s : simple) (d : node) :
  absent s d <-> document_querySelector (Sel s) d = None.
Proof.
  unfold absent, document_querySelector. split.
  - intros H. destruct (search (Sel s) None d) as [p|] eqn:E; [|reflexivity].
    destruct (search_sound _ _ _ _ E) as (t & a & ks & Hg & Hm).
    rewrite (H _ _ _ _ Hg) in Hm. discriminate.
  - intros H. now apply search_complete with (parent := None).
Qed.

Lemma nth_error_update_nth_same i f ks k :
  nth_error ks i = Some k -> nth_error (update_nth i f ks) i = Some (f k).
Proof.
  revert i. induction ks as [|k0 r IH]; intros [|i]; simpl; try discriminate.
  - now intros [= ->].
  - apply IH.
Qed.

Lemma nth_error_update_nth_other i j f ks :
  i <> j -> nth_error (update_nth i f ks) j = nth_error ks j.
Proof.
  revert i j.
  induction ks as [|k0 r IH]; intros [|i] [|j] H; simpl; auto; try congruence.
Qed.

Lemma update_nth_twice i f g ks :
  update_nth i g (update_nth i f ks) = update_nth i (fun k => g (f k)) ks.
Proof.
  revert i. induction ks as [|k0 r IH]; intros [|i]; simpl; auto.
  now rewrite IH.
Qed.

Lemma update_nth_ext i f g ks :
  (forall k, In k ks -> f k = g k) -> update_nth i f ks = update_nth i g ks.
Proof.
  revert i. induction ks as [|k0 r IH]; intros [|i] H; simpl; auto.
  - rewrite H; simpl; auto.
  - rewrite IH; auto. intros k Hk. apply H. now right.
Qed.

Lemma update_nth_same i f ks k :
  nth_error ks i = Some k -> f k = k -> update_nth i f ks = ks.
Proof.
  revert i. induction ks as [|k0 r IH]; intros [|i]; simpl; try discriminate.
  - intros [= ->] ->. reflexivity.
  - intros Hn Hf. now rewrite IH.
Qed.

Lemma get_replace_at_same p : forall n x y,
  get n p = Some x -> get (replace_at p y n) p = Some y.
Proof.
  induction p as [|i p IH]; intros n x y; simpl; [reflexivity|].
  destruct n as [d|t a ks]; [discriminate|].
  destruct (nth_error ks i) as [k|] eqn:Hn; [|discriminate].
  intros H. rewrite (nth_error_update_nth_same _ _ _ _ Hn). eapply IH, H.
Qed.

Lemma get_replace_at_apart p : forall q n y,
  apart p q = true -> get (replace_at p y n) q = get n q.
Proof.
  induction p as [|i p IH]; intros [|j q] n y; simpl; try discriminate.
  destruct n as [d|t a ks]; [reflexivity|].
  destruct (Nat.eqb_spec i j) as [->|Hne].
  - intros H. destruct (nth_error ks j) as [k|] eqn:Hn.
    + rewrite (nth_error_update_nth_same _ _ _ _ Hn). now apply IH.
    + assert (E : nth_error (update_nth j (replace_at p y) ks) j = None).
      { clear -Hn. revert j Hn.
        induction ks as [|k0 r IHr]; intros [|j]; simpl; auto; discriminate. }
      now rewrite E.
  - intros _. now rewrite nth_error_update_nth_other.
Qed.

Lemma replace_at_twice p : forall n x y,
  replace_at p y (replace_at p x n) = replace_at p y n.
Proof.
  induction p as [|i p IH]; intros n x y; simpl; [reflexivity|].
  destruct n as [d|t a ks]; [reflexivity|].
  rewrite update_nth_twice. f_equal. apply update_nth_ext. intros k _. apply IH.
Qed.

Lemma replace_at_get p : forall n x, get n p = Some x -> replace_at p x n = n.
Proof.
  induction p as [|i p IH]; intros n x; simpl.
  - now intros [= ->].
  - destruct n as [s|t a ks]; [discriminate|].
    destruct (nth_error ks i) as [k|] eqn:Hn; [|discriminate].
    intros Hg. now rewrite (update_nth_same _ _ _ _ Hn (IH _ _ Hg)).
Qed.

(** Replacing the children of the element a search found does not change
    what the search finds. *)
Lemma search_replace_children sel n : forall parent p t a ks ks',
  search sel parent n = Some p ->
  get n p = Some (Elem t a ks) ->
  search sel parent (replace_at p (Elem t a ks') n) = Some p.
Proof.
  induction n as [d|t0 a0 ks0 IH] using node_ind; intros parent p t a ks ks'.
  - discriminate.
  - rewrite search_Elem. destruct (matches sel parent t0 a0) eqn:Em.
    + intros [= <-]. simpl. intros [= <- <- <-]. now rewrite Em.
    + intros H. apply search_children_found in H.
      destruct H as (i & q & k & -> & Hn & Hs & Hb).
      cbn [get replace_at Nat.add]. rewrite Hn. intros Hg.
      rewrite search_Elem, Em.
      generalize (search_children_first sel (Some (t0, a0))
        (update_nth i (replace_at q (Elem t a ks')) ks0) 0 i q _
        (nth_error_update_nth_same _ _ _ _ Hn)).
      simpl. intros G. apply G.
      * rewrite Forall_forall in IH.
        apply (IH k (nth_error_In _ _ Hn) _ _ _ _ ks _ Hs Hg).
      * intros j kj Hj. rewrite nth_error_update_nth_other; [|lia].
        now apply Hb.
Qed.

Lemma append_at_element p child n t a ks :
  get n p = Some (Elem t a ks) ->
  append_at p child n = replace_at p (Elem t a (ks ++ [child])) n.
Proof. unfold append_at. now intros ->. Qed.

(** The elements of the document with the style element in its head: the
    style element, and the elements of the document, where they were. *)
Lemma get_styled (doc : document) (p : path) t a ks :
  get (styled doc) p = Some (Elem t a ks) ->
  (t = "style" /\ a = []) \/ exists ks', get (tree doc) p = Some (Elem t a ks').
Proof.
  unfold styled, tree. destruct p as [|[|i] p]; cbn [get nth_error].
  - intros [= <- <- <-]. right. eexists. reflexivity.
  - destruct p as [|j p]; cbn [get].
    + intros [= <- <- <-]. right. eexists. reflexivity.
    + destruct (Nat.lt_ge_cases j (List.length (head_children doc))) as [Hj|Hj].
      * rewrite nth_error_app1 by exact Hj. intros H. right. now exists ks.
      * rewrite nth_error_app2 by exact Hj.
        destruct (j - List.length (head_children doc)) as [|k]; simpl.
        -- destruct p as [|[|k] p]; simpl.
           ++ intros [= <- <- <-]. now left.
           ++ destruct p; discriminate.
           ++ destruct k; discriminate.
        -- destruct k; discriminate.
  - intros H. right. now exists ks.
Qed.

Lemma absent_styled (s : simple) (doc : document) :
  matches_simple s "style" [] = false ->
  absent s (tree doc) -> absent s (styled doc).
Proof.
  intros Hs Ha p t a ks Hg.
  destruct (get_styled doc p t a ks Hg) as [[-> ->]|[ks' Hg']]; [exact Hs|].
  apply (Ha _ _ _ _ Hg').
Qed.

(** ** Facts about runs and traces *)

(** ** The load handler *)

Lemma bind_ok {A B} (m : M A) (k : A -> M B) (d d' : node) (a : A)
    (ev : list event) :
  m d = Run (Ok a) d' ev ->
  bind m k d = Run (out (k a d')) (page (k a d')) (ev ++ log (k a d')).
Proof. unfold bind. now intros ->. Qed.

Lemma run_eta {A} (r : run A) : r = Run (out r) (page r) (log r).
Proof. now destruct r. Qed.

Lemma requests_app (l1 l2 : list event) :
  requests (l1 ++ l2) = requests l1 ++ requests l2.
Proof.
  induction l1 as [|e l1 IH]; simpl; [reflexivity|].
  destruct e; simpl; congruence.
Qed.


Lemma provider_calls_app (l1 l2 : list event) :
  provider_calls (l1 ++ l2) = provider_calls l1 ++ provider_calls l2.
Proof.
  induction l1 as [|e l1 IH]; simpl; [reflexivity|].
  destruct e; simpl; congruence.
Qed.


(** Reads are neither requests, diagnostics, provider calls nor appends. *)
Lemma reads_silent (l : list event) :
  forallb is_read l = true ->
  requests l = [] /\ diagnostics l = [] /\ provider_calls l = []
  /\ appends l = [].
Proof.
  induction l as [|e l IH]; simpl; [auto|].
  rewrite andb_true_iff. intros [He Hl].
  destruct e; try discriminate; simpl; auto.
Qed.

Lemma lookup_silent (l : list event) :
  forallb is_lookup l = true -> provider_calls l = [] /\ appends l = [].
Proof.
  induction l as [|e l IH]; simpl; [auto|].
  rewrite andb_true_iff. intros [He Hl].
  destruct e; try discriminate; simpl; auto.
Qed.

Lemma rendering_no_requests (l : list event) :
  forallb is_rendering l = true -> requests l = [].
Proof.
  induction l as [|e l IH]; simpl; [auto|].
  rewrite andb_true_iff. intros [He Hl].
  destruct e; try discriminate; simpl; auto.
Qed.

Lemma forallb_concat {A} (f : A -> bool) (ls : list (list A)) :
  (forall l, In l ls -> forallb f l = true) -> forallb f (concat ls) = true.
Proof.
  induction ls as [|l ls IH]; intros H; simpl; [reflexivity|].
  rewrite forallb_app, (H l (or_introl eq_refl)). simpl.
  apply IH. intros l' Hl'. apply H. now right.
Qed.

(** ** The extraction functions *)

Section Readers.

Variable h : host.

Lemma getImdbID_run (d : node) :
  getImdbID h d =
  match document_querySelector (Sel (ByClass "micro-button")) d with
  | Some p =>
      Run (Ok (match href h d p with
               | Some u =>
                   match nth_error (Str.split_slash u) 4 with
                   | Some i => if Str.startsWith "tt" i then Some i else None
                   | None => None
                   end
               | None => None
               end))
          d [DomQuery None (Sel (ByClass "micro-button")); DomRead p Href]
  | None => Run (Ok None) d [DomQuery None (Sel (ByClass "micro-button"))]
  end.
Proof.
  unfold getImdbID, bind, querySelector. simpl.
  destruct (document_querySelector _ d) as [p|]; simpl; [|reflexivity].
  destruct (href h d p); reflexivity.
Qed.

Lemma getTmdbID_run (d : node) :
  getTmdbID h d =
  match document_querySelector (Sel (ByClass "tmdb-button")) d with
  | Some p =>
      Run (Ok (match href h d p with
               | Some u =>
                   match Str.pop (Str.split_slash u) with
                   | Some i =>
                       if negb (Str.is_empty i) && Str.test_digits i
                       then Some i else None
                   | None => None
                   end
               | None => None
               end))
          d [DomQuery None (Sel (ByClass "tmdb-button")); DomRead p Href]
  | None => Run (Ok None) d [DomQuery None (Sel (ByClass "tmdb-button"))]
  end.
Proof.
  unfold getTmdbID, bind, querySelector. simpl.
  destruct (document_querySelector _ d) as [p|]; simpl; [|reflexivity].
  destruct (href h d p); reflexivity.
Qed.

Lemma getQuery_out (d : node) :
  out (getQuery h d)
  = Ok (Str.replace_spaces
          (match page_title h d with Some t => t | None => "" end)).
Proof.
  unfold getQuery, page_title, bind, querySelector. simpl.
  destruct (document_querySelector _ d) as [c|]; simpl; [|reflexivity].
  destruct (element_querySelector c (Sel (ByTag "h1")) d) as [p|]; simpl.
  - destruct (element_querySelector c _ d); simpl; reflexivity.
  - destruct (element_querySelector c _ d); simpl; reflexivity.
Qed.

Lemma getQuery_page (d : node) : page (getQuery h d) = d.
Proof.
  unfold getQuery, bind, querySelector. simpl.
  destruct (document_querySelector _ d) as [c|]; simpl; [|reflexivity].
  destruct (element_querySelector c (Sel (ByTag "h1")) d) as [p|]; simpl;
    destruct (element_querySelector c _ d); simpl; reflexivity.
Qed.

Lemma getQuery_reads (d : node) :
  forallb is_read (log (getQuery h d)) = true.
Proof.
  unfold getQuery, bind, querySelector. simpl.
  destruct (document_querySelector _ d) as [c|]; simpl; [|reflexivity].
  destruct (element_querySelector c (Sel (ByTag "h1")) d) as [p|]; simpl;
    destruct (element_querySelector c _ d); simpl; reflexivity.
Qed.

Lemma getImdbID_page (d : node) : page (getImdbID h d) = d.
Proof.
  rewrite getImdbID_run. now destruct (document_querySelector _ d).
Qed.

Lemma getImdbID_reads (d : node) :
  forallb is_read (log (getImdbID h d)) = true.
Proof.
  rewrite getImdbID_run. now destruct (document_querySelector _ d).
Qed.

Lemma getImdbID_ok (d : node) : exists v, out (getImdbID h d) = Ok v.
Proof.
  rewrite getImdbID_run. destruct (document_querySelector _ d); eexists;
    reflexivity.
Qed.

Lemma getTmdbID_page (d : node) : page (getTmdbID h d) = d.
Proof.
  rewrite getTmdbID_run. now destruct (document_querySelector _ d).
Qed.

Lemma getTmdbID_reads (d : node) :
  forallb is_read (log (getTmdbID h d)) = true.
Proof.
  rewrite getTmdbID_run. now destruct (document_querySelector _ d).
Qed.

Lemma getTmdbID_ok (d : node) : exists v, out (getTmdbID h d) = Ok v.
Proof.
  rewrite getTmdbID_run. destruct (document_querySelector _ d); eexists;
    reflexivity.
Qed.

Lemma getTmdbID_truthy (d : node) (id : string) :
  out (getTmdbID h d) = Ok (Some id) -> truthy (J (JStr id)) = true.
Proof.
  rewrite getTmdbID_run.
  destruct (document_querySelector _ d) as [p|];
    [|cbn; intros H; discriminate H].
  cbn [out]. destruct (href h d p) as [u|]; [|discriminate].
  destruct (Str.pop (Str.split_slash u)) as [i|]; [|discriminate].
  destruct (negb (Str.is_empty i) && Str.test_digits i) eqn:Ev; [|discriminate].
  intros [= <-]. apply andb_true_iff in Ev. now destruct Ev.
Qed.


Lemma match_film_truthy (s slug : string) :
  Str.match_film s = Some slug -> truthy (J (JStr slug)) = true.
Proof.
  intros H. destruct (StrFacts.match_film_sound _ _ H) as (_ & _ & _ & _ & Hn & _).
  simpl. now destruct slug.
Qed.

End Readers.

Lemma readers_read (h : host) (d : node) :
  forallb is_read (log (getQuery h d) ++ log (getImdbID h d)
                   ++ log (getTmdbID h d)) = true.
Proof.
  now rewrite !forallb_app, getQuery_reads, getImdbID_reads, getTmdbID_reads.
Qed.

(** C8. Whenever [getImdbID] returns an ID, the ID is the fifth
    slash-separated segment ([split("/")[4]]) of the [href] of the first
    element of class [micro-button], and it starts with "tt". *)
Theorem getImdbID_fifth_segment_tt (h : host) (d : node) (id : string) :
  out (getImdbID h d) = Ok (Some id) ->
  exists p t a ks u,
    document_querySelector (Sel (ByClass "micro-button")) d = Some p
    /\ get d p = Some (Elem t a ks)
    /\ has_class "micro-button" a = true
    /\ href h d p = Some u
    /\ nth_error (Str.split_slash u) 4 = Some id
    /\ exists rest, id = String "t" (String "t" rest).
Proof.
  rewrite getImdbID_run.
  destruct (document_querySelector _ d) as [p|] eqn:Eq;
    [|cbn; intros H; discriminate H].
  destruct (search_sound _ _ _ _ Eq) as (t & a & ks & Hg & Hm).
  cbn [out]. destruct (href h d p) as [u|] eqn:Eh; [|discriminate].
  destruct (nth_error (Str.split_slash u) 4) as [i|] eqn:En; [|discriminate].
  destruct (Str.startsWith "tt" i) eqn:Es; [|discriminate].
  intros [= <-]. exists p, t, a, ks, u.
  repeat split; auto. now apply StrFacts.startsWith_tt.
Qed.

Lemma getImdbID_fifth_segment_tt_witness :
  out (getImdbID film_host (tree film_page)) = Ok (Some "tt0113277")
  /\ exists p t a ks u,
       document_querySelector (Sel (ByClass "micro-button")) (tree film_page)
       = Some p
       /\ get (tree film_page) p = Some (Elem t a ks)
       /\ has_class "micro-button" a = true
       /\ href film_host (tree film_page) p = Some u
       /\ nth_error (Str.split_slash u) 4 = Some "tt0113277"
       /\ exists rest, "tt0113277" = String "t" (String "t" rest).
Proof.
  split; [reflexivity|].
  apply (getImdbID_fifth_segment_tt film_host (tree film_page)). reflexivity.
Defined.

(** C9. Whenever [getTmdbID] returns an ID, the ID is the last
    slash-separated segment of the [href] of the first element of class
    [tmdb-button]; it is not empty and all its characters are decimal
    digits. *)
Theorem getTmdbID_last_segment_digits (h : host) (d : node) (id : string) :
  out (getTmdbID h d) = Ok (Some id) ->
  exists p t a ks u front,
    document_querySelector (Sel (ByClass "tmdb-button")) d = Some p
    /\ get d p = Some (Elem t a ks)
    /\ has_class "tmdb-button" a = true
    /\ href h d p = Some u
    /\ Str.split_slash u = front ++ [id]
    /\ id <> ""
    /\ Forall (fun c => 48 <= nat_of_ascii c <= 57) (list_ascii_of_string id).
Proof.
  rewrite getTmdbID_run.
  destruct (document_querySelector _ d) as [p|] eqn:Eq;
    [|cbn; intros H; discriminate H].
  destruct (search_sound _ _ _ _ Eq) as (t & a & ks & Hg & Hm).
  cbn [out]. destruct (href h d p) as [u|] eqn:Eh; [|discriminate].
  destruct (Str.pop (Str.split_slash u)) as [i|] eqn:En; [|discriminate].
  destruct (negb (Str.is_empty i) && Str.test_digits i) eqn:Ev; [|discriminate].
  intros [= <-]. apply andb_true_iff in Ev. destruct Ev as [Hne Hd].
  destruct (StrFacts.pop_last _ _ En) as [front Ef].
  exists p, t, a, ks, u, front. repeat split; auto.
  - apply StrFacts.is_empty_false. now apply negb_true_iff.
  - apply StrFacts.all_digits_Forall. unfold Str.test_digits in Hd.
    now apply andb_true_iff in Hd.
Qed.

Lemma getTmdbID_last_segment_digits_witness :
  out (getTmdbID film_host (tree film_page)) = Ok (Some "949")
  /\ exists p t a ks u front,
       document_querySelector (Sel (ByClass "tmdb-button")) (tree film_page)
       = Some p
       /\ get (tree film_page) p = Some (Elem t a ks)
       /\ has_class "tmdb-button" a = true
       /\ href film_host (tree film_page) p = Some u
       /\ Str.split_slash u = front ++ ["949"]
       /\ "949" <> ""
       /\ Forall (fun c => 48 <= nat_of_ascii c <= 57)
                 (list_ascii_of_string "949").
Proof.
  split; [reflexivity|].
  apply (getTmdbID_last_segment_digits film_host (tree film_page)). reflexivity.
Defined.



(** C4. The query [getQuery] returns is the title with its runs of
    whitespace replaced by hyphens, and nothing else: the year is read and
    left out.  On the film page, where the details container holds the
    title "Heat" and the release year "1995", the query is "Heat", which
    does not contain "1995". *)
Theorem getQuery_omits_year :
  (forall h d,
     out (getQuery h d)
     = Ok (Str.replace_spaces
             (match page_title h d with Some t => t | None => "" end)))
  /\ page_title film_host (tree film_page) = Some "Heat"
  /\ page_year film_host (tree film_page) = Some "1995"
  /\ out (getQuery film_host (tree film_page)) = Ok "Heat"
  /\ Str.includes "1995" "Heat" = false.
Proof.
  split; [exact getQuery_out|].
  split; [reflexivity|]. split; [reflexivity|]. split; reflexivity.
Qed.

(** ** Adding a service *)

Lemma addService_run (sd : ServiceData) (d : node) (p : path) t a ks :
  document_querySelector (Sel (ByClass "services")) d = Some p ->
  get d p = Some (Elem t a ks) ->
  addService sd d
  = Run (Ok tt) (replace_at p (Elem t a (ks ++ [serviceItem sd])) d)
        (service_events p sd).
Proof.
  intros Hq Hg. unfold addService, bind, querySelector. cbn [out page log].
  rewrite Hq. cbn -[append_at replace_at].
  now rewrite (append_at_element _ _ _ _ _ _ Hg).
Qed.

Lemma addService_skip (sd : ServiceData) (d : node) :
  document_querySelector (Sel (ByClass "services")) d = None ->
  addService sd d = Run (Ok tt) d [DomQuery None (Sel (ByClass "services"))].
Proof.
  intros Hq. unfold addService, bind, querySelector. cbn [out page log].
  rewrite Hq. reflexivity.
Qed.

Lemma for_each_addService_section (p : path) t a : forall l ks d,
  document_querySelector (Sel (ByClass "services")) d = Some p ->
  get d p = Some (Elem t a ks) ->
  for_each l addService d
  = Run (Ok tt) (replace_at p (Elem t a (ks ++ map serviceItem l)) d)
        (concat (map (service_events p) l)).
Proof.
  induction l as [|sd l IH]; intros ks d Hq Hg.
  - simpl. rewrite app_nil_r. now rewrite (replace_at_get _ _ _ Hg).
  - cbn [for_each].
    rewrite (bind_ok _ _ _ _ _ _ (addService_run sd _ _ _ _ _ Hq Hg)).
    rewrite (IH (ks ++ [serviceItem sd])).
    + cbn [out page log map concat]. rewrite replace_at_twice.
      now rewrite <- app_assoc.
    + now apply search_replace_children with (ks := ks).
    + now apply get_replace_at_same with (x := Elem t a ks).
Qed.

Lemma for_each_addService_skip : forall l d,
  document_querySelector (Sel (ByClass "services")) d = None ->
  for_each l addService d
  = Run (Ok tt) d (map (fun _ => DomQuery None (Sel (ByClass "services"))) l).
Proof.
  induction l as [|sd l IH]; intros d Hq; [reflexivity|].
  cbn [for_each]. rewrite (bind_ok _ _ _ _ _ _ (addService_skip sd _ Hq)).
  now rewrite (IH d Hq).
Qed.

Lemma services_events_appends (p : path) (l : list ServiceData) :
  appends (concat (map (service_events p) l))
  = map (fun sd => (p, serviceItem sd)) l.
Proof. induction l as [|sd l IH]; simpl; congruence. Qed.

Lemma services_events_quiet (p : path) (l : list ServiceData) :
  diagnostics (concat (map (service_events p) l)) = []
  /\ provider_calls (concat (map (service_events p) l)) = [].
Proof. induction l as [|sd l IH]; simpl; auto. Qed.

Lemma skipped_events_quiet (l : list ServiceData) :
  let ev := map (fun _ : ServiceData =>
                   DomQuery None (Sel (ByClass "services"))) l in
  diagnostics ev = [] /\ provider_calls ev = [] /\ appends ev = []
  /\ forallb is_rendering ev = true.
Proof. induction l as [|sd l IH]; simpl; auto. Qed.

(** C10. When no element of the page has the class [services],
    [addService] returns normally and leaves the page as it is: its only
    effect is the query for the section; no node is created, none is
    appended. *)
Theorem addService_without_services_section (sd : ServiceData) (d : node) :
  absent (ByClass "services") d ->
  out (addService sd d) = Ok tt
  /\ page (addService sd d) = d
  /\ log (addService sd d) = [DomQuery None (Sel (ByClass "services"))].
Proof.
  intros Ha. apply absent_querySelector in Ha.
  rewrite (addService_skip sd d Ha). repeat split.
Qed.

Lemma addService_without_services_section_witness :
  out (addService {| name := "N"; url := "U"; icon := "I" |}
         (page (initPage (tree film_page_without_watch)))) = Ok tt
  /\ page (addService {| name := "N"; url := "U"; icon := "I" |}
             (page (initPage (tree film_page_without_watch))))
     = page (initPage (tree film_page_without_watch))
  /\ log (addService {| name := "N"; url := "U"; icon := "I" |}
            (page (initPage (tree film_page_without_watch))))
     = [DomQuery None (Sel (ByClass "services"))].
Proof.
  apply (addService_without_services_section
           {| name := "N"; url := "U"; icon := "I" |}
           (page (initPage (tree film_page_without_watch)))).
  apply absent_querySelector. vm_compute. reflexivity.
Defined.

(** C5. When the page has a services section, [addService] appends
    exactly one node to the first one, the paragraph [serviceItem]: a link
    whose [href] is the descriptor's URL and whose [target] is [_blank],
    holding an image whose [src] is the descriptor's icon and the
    descriptor's name as text.  Nothing else on the page changes. *)
Theorem addService_appends_one_link
    (sd : ServiceData) (d : node) (q : path) (t0 : string) (a0 : attrs)
    (ks0 : list node) :
  get d q = Some (Elem t0 a0 ks0) ->
  has_class "services" a0 = true ->
  exists p t a ks,
    document_querySelector (Sel (ByClass "services")) d = Some p
    /\ get d p = Some (Elem t a ks)
    /\ has_class "services" a = true
    /\ out (addService sd d) = Ok tt
    /\ get (page (addService sd d)) p
       = Some (Elem t a
           (ks ++
            [ Elem "p" [("class", "service")]
                [ Elem "a" [("href", url sd); ("target", "_blank");
                            ("class", "label")]
                    [ Elem "span" [("class", "brand")]
                        [ Elem "img" [("src", icon sd); ("width", "20");
                                      ("height", "20")] [] ];
                      Elem "span" [("class", "title")] [Text (name sd)] ] ] ]))
    /\ (forall q', apart p q' = true ->
                   get (page (addService sd d)) q' = get d q')
    /\ appends (log (addService sd d)) = [(p, serviceItem sd)].
Proof.
  intros Hg0 Hc0.
  destruct (document_querySelector (Sel (ByClass "services")) d) as [p|] eqn:Hq.
  - destruct (search_sound _ _ _ _ Hq) as (t & a & ks & Hg & Hm).
    exists p, t, a, ks. rewrite (addService_run sd d p t a ks Hq Hg).
    cbn [out page log]. repeat split; auto.
    + now apply get_replace_at_same with (x := Elem t a ks).
    + intros q' Hpq. now apply get_replace_at_apart.
  - apply absent_querySelector in Hq.
    specialize (Hq q t0 a0 ks0 Hg0). simpl in Hq. congruence.
Qed.

Lemma addService_appends_one_link_witness :
  exists p t a ks,
    document_querySelector (Sel (ByClass "services"))
      (Elem "section" [("class", "services")] []) = Some p
    /\ get (Elem "section" [("class", "services")] []) p = Some (Elem t a ks)
    /\ has_class "services" a = true
    /\ out (addService {| name := "N"; url := "U"; icon := "I" |}
              (Elem "section" [("class", "services")] [])) = Ok tt
    /\ get (page (addService {| name := "N"; url := "U"; icon := "I" |}
                    (Elem "section" [("class", "services")] []))) p
       = Some (Elem t a
           (ks ++
            [ Elem "p" [("class", "service")]
                [ Elem "a" [("href", "U"); ("target", "_blank");
                            ("class", "label")]
                    [ Elem "span" [("class", "brand")]
                        [ Elem "img" [("src", "I"); ("width", "20");
                                      ("height", "20")] [] ];
                      Elem "span" [("class", "title")] [Text "N"] ] ] ]))
    /\ (forall q', apart p q' = true ->
          get (page (addService {| name := "N"; url := "U"; icon := "I" |}
                       (Elem "section" [("class", "services")] []))) q'
          = get (Elem "section" [("class", "services")] []) q')
    /\ appends (log (addService {| name := "N"; url := "U"; icon := "I" |}
                       (Elem "section" [("class", "services")] [])))
       = [(p, serviceItem {| name := "N"; url := "U"; icon := "I" |})].
Proof.
  apply (addService_appends_one_link
           {| name := "N"; url := "U"; icon := "I" |}
           (Elem "section" [("class", "services")] []) []
           "section" [("class", "services")] []).
  - reflexivity.
  - reflexivity.
Defined.

(** ** The lookup *)

(** The two ways a lookup ends: with [null] after one diagnostic, or with
    a value and no diagnostic. *)
Ltac diagnosed :=
  cbn; eexists null, [_]; split; [reflexivity | right; eauto].

Ltac silent :=
  cbn; eexists _, []; split; [reflexivity | now left].

(** Runs the lookup up to the test of the body, on the answer [Ha]. *)
Ltac answered Ha :=
  cbv [try_catch bind fetch_json emit console_error out page log];
  rewrite Ha;
  cbv [get_property ret throw out page log].

Section Lookup.

Variable h : host.

(** What one lookup does: one request, then either a value or [null]
    after one diagnostic. *)
Lemma fetchTmdbId_shape (filmName : string) (d : node) :
  exists v ds,
    fetchTmdbIdFromLetterboxd h filmName d
    = Run (Ok v) d (NetRequest (apiUrl filmName) :: map ConsoleError ds)
    /\ (ds = []
        \/ (v = null
            /\ (ds = [MovieNotFound] \/ exists e, ds = [ErrorFetching e]))).
Proof.
  unfold fetchTmdbIdFromLetterboxd. generalize (apiUrl filmName). intros u.
  cbv [try_catch bind fetch_json emit console_error out page log].
  destruct (network h u) as [| |data]; try solve [diagnosed].
  destruct data as [|b|n|s|l|ms]; try solve [diagnosed].
  cbv [get_property ret throw out page log].
  destruct (member "results" ms) as [res|]; [|solve [diagnosed]].
  destruct res as [|b|n|s|l|os]; try solve [diagnosed].
  - destruct b; diagnosed.
  - cbn. destruct (negb (n =? 0)%Z); diagnosed.
  - destruct s as [|c s']; [solve [diagnosed]|].
    cbn -[Str.chars]. destruct (Str.chars (String c s')); [diagnosed|silent].
  - destruct l as [|x xs]; [solve [diagnosed]|].
    destruct x; try solve [silent]. diagnosed.
  - cbv [truthy length_gt_zero ret out page log].
    destruct (match member "length" os with
              | Some (JNum n) => (0 <? n)%Z
              | Some w => gt_zero h w
              | None => false
              end); [|solve [diagnosed]].
    cbv [get_first ret out page log].
    destruct (member "0" os) as [x|]; [|solve [diagnosed]].
    destruct x; try solve [silent]. diagnosed.
Qed.

End Lookup.




(** ** The load handler *)

Lemma initPage_run (doc : document) :
  initPage (tree doc) =
  match document_querySelector (Sel (ById "watch")) (styled doc) with
  | Some w =>
      Run (Ok tt) (replace_at w services_section (styled doc))
          (init_events ++ [DomReplace w services_section])
  | None => Run (Ok tt) (styled doc) init_events
  end.
Proof.
  unfold initPage.
  cbv [bind createTextNode createElement emit ret head append replaceWith
       getElementById querySelector out page log fold_left].
  change (document_head (tree doc)) with (Some [0]).
  cbv iota beta.
  change (append_at [0] style_node (tree doc)) with (styled doc).
  cbn [out page log].
  change (append_at [0]
            (Elem "style" []
               [Text ".services > .service {display: flex !important;}"])
            (tree doc)) with (styled doc).
  destruct (document_querySelector (Sel (ById "watch")) (styled doc));
    reflexivity.
Qed.

Lemma initPage_log (doc : document) :
  exists replaced,
    log (initPage (tree doc)) = init_events ++ replaced
    /\ (replaced = [] \/ exists w, replaced = [DomReplace w services_section]).
Proof.
  rewrite initPage_run.
  destruct (document_querySelector (Sel (ById "watch")) (styled doc)) as [w|].
  - exists [DomReplace w services_section]. split; [reflexivity|]. right.
    now exists w.
  - exists []. split; [now rewrite app_nil_r|now left].
Qed.

Lemma initPage_quiet (doc : document) :
  requests (log (initPage (tree doc))) = []
  /\ diagnostics (log (initPage (tree doc))) = []
  /\ provider_calls (log (initPage (tree doc))) = []
  /\ appends (log (initPage (tree doc))) = [([0], style_node)].
Proof.
  destruct (initPage_log doc) as (replaced & -> & [->|[w ->]]);
    repeat split.
Qed.

(** The page [initPage] leaves when there is no [#watch] section: the
    document with the style element in its head, without a services
    section unless the document came with one. *)
Lemma initPage_without_watch (doc : document) :
  absent (ById "watch") (tree doc) ->
  page (initPage (tree doc)) = styled doc
  /\ (absent (ByClass "services") (tree doc) ->
      absent (ByClass "services") (page (initPage (tree doc)))).
Proof.
  intros Hw.
  assert (E : page (initPage (tree doc)) = styled doc).
  { rewrite initPage_run.
    apply (absent_styled (ById "watch")) in Hw; [|reflexivity].
    apply absent_querySelector in Hw. now rewrite Hw. }
  split; [exact E|]. rewrite E. now apply absent_styled.
Qed.

(** On a tree without a head [document.head] is [null], and the handler
    ends in a TypeError before it reads anything. *)
Example onload_without_head :
  out (onload film_host headless) = Throw TypeError
  /\ log (onload film_host headless)
     = [ DomCreateText ".services > .service {display: flex !important;}";
         DomCreate "style"; DomHead ].
Proof. split; vm_compute; reflexivity. Qed.

Section Handler.

Variable h : host.

Lemma fetchedTmdbId_run (t : option string) (d : node) :
  fetchedTmdbId h t d =
  if truthy (of_option_string t) then Run (Ok (of_option_string t)) d []
  else match Str.match_film (location_href h) with
       | Some slug => fetchTmdbIdFromLetterboxd h slug d
       | None => Run (Ok (of_option_string t)) d []
       end.
Proof.
  unfold fetchedTmdbId. destruct (truthy (of_option_string t)); [reflexivity|].
  cbn [negb]. unfold getLetterboxdFilmName, bind, ret. cbn [out page log].
  destruct (Str.match_film (location_href h)) as [slug|] eqn:E; [|reflexivity].
  rewrite (match_film_truthy _ _ E). cbn [app].
  symmetry. apply run_eta.
Qed.

Lemma call_getServices_run (q : string) (i : option string) (f : jsval)
    (d : node) :
  call_getServices h q i f d
  = Run (Ok (provided h q i f)) d (call_events h q i f).
Proof.
  unfold call_getServices, provided, call_events.
  destruct (getServices h); reflexivity.
Qed.

(** The end of the handler, written out. *)
Lemma render_run (q : string) (i : option string) (f : jsval) (d : node) :
  render h q i f d =
  if negb (nothing_to_show q i f) then
    match document_querySelector (Sel (ByClass "services")) d with
    | Some p =>
        match get d p with
        | Some (Elem t a ks) =>
            Run (Ok tt)
                (replace_at p
                   (Elem t a (ks ++ map serviceItem (provided h q i f))) d)
                (call_events h q i f
                 ++ concat (map (service_events p) (provided h q i f)))
        | _ => render h q i f d
        end
    | None =>
        Run (Ok tt) d
            (call_events h q i f
             ++ map (fun _ => DomQuery None (Sel (ByClass "services")))
                    (provided h q i f))
    end
  else Run (Ok tt) d [ConsoleError FailedToRetrieve].
Proof.
  unfold render at 1. destruct (nothing_to_show q i f); [reflexivity|].
  cbn [negb].
  rewrite (bind_ok _ _ _ _ _ _ (call_getServices_run q i f d)).
  destruct (document_querySelector (Sel (ByClass "services")) d) as [p|] eqn:Hq.
  - destruct (search_sound _ _ _ _ Hq) as (t & a & ks & Hg & _). rewrite Hg.
    now rewrite (for_each_addService_section p t a _ ks d Hq Hg).
  - now rewrite (for_each_addService_skip _ d Hq).
Qed.

Lemma render_rendering (q : string) (i : option string) (f : jsval)
    (d : node) :
  forallb is_rendering (log (render h q i f d)) = true.
Proof.
  assert (Hc : forallb is_rendering (call_events h q i f) = true)
    by (unfold call_events; now destruct (getServices h)).
  rewrite render_run. destruct (nothing_to_show q i f); [reflexivity|].
  cbn [negb].
  destruct (document_querySelector (Sel (ByClass "services")) d) as [p|] eqn:Hq.
  - destruct (search_sound _ _ _ _ Hq) as (t & a & ks & Hg & _). rewrite Hg.
    cbn [log]. rewrite forallb_app, Hc. simpl.
    apply forallb_concat. intros l Hl. apply in_map_iff in Hl.
    now destruct Hl as (sd & <- & _).
  - cbn [log]. rewrite forallb_app, Hc. simpl.
    apply (skipped_events_quiet (provided h q i f)).
Qed.

Lemma fetchedTmdbId_shape (t : option string) (d : node) :
  exists f ev,
    fetchedTmdbId h t d = Run (Ok f) d ev
    /\ forallb is_lookup ev = true
    /\ ~ In FailedToRetrieve (diagnostics ev)
    /\ (truthy (of_option_string t) = true ->
        f = of_option_string t /\ ev = [])
    /\ (truthy (of_option_string t) = false ->
        match Str.match_film (location_href h) with
        | Some slug => requests ev = [apiUrl slug]
        | None => requests ev = []
        end).
Proof.
  rewrite fetchedTmdbId_run. destruct (truthy (of_option_string t)) eqn:Et.
  - exists (of_option_string t), [].
    split; [reflexivity|]. split; [reflexivity|]. split; [now simpl|].
    split; [auto|discriminate].
  - destruct (Str.match_film (location_href h)) as [slug|].
    + destruct (fetchTmdbId_shape h slug d) as (v & ds & -> & Hd).
      exists v, (NetRequest (apiUrl slug) :: map ConsoleError ds).
      assert (E : requests (map ConsoleError ds) = [])
        by (clear Hd; induction ds; simpl; auto).
      assert (E' : diagnostics (map ConsoleError ds) = ds)
        by (clear Hd E; induction ds; simpl; congruence).
      split; [reflexivity|]. split; [|split; [|split]].
      * simpl. clear Hd E E'. induction ds; simpl; auto.
      * cbn [diagnostics]. rewrite E'.
        destruct Hd as [->|[_ [->|[e ->]]]]; simpl; intuition discriminate.
      * discriminate.
      * intros _. simpl. now rewrite E.
    + exists (of_option_string t), [].
      split; [reflexivity|]. split; [reflexivity|]. split; [now simpl|].
      split; [discriminate|reflexivity].
Qed.

(** The load handler on a document, step by step. *)
Lemma onload_run (doc : document) :
  exists q i t f evf,
    out (getQuery h (page (initPage (tree doc)))) = Ok q
    /\ out (getImdbID h (page (initPage (tree doc)))) = Ok i
    /\ out (getTmdbID h (page (initPage (tree doc)))) = Ok t
    /\ fetchedTmdbId h t (page (initPage (tree doc)))
       = Run (Ok f) (page (initPage (tree doc))) evf
    /\ onload h (tree doc)
       = Run (out (render h q i f (page (initPage (tree doc)))))
             (page (render h q i f (page (initPage (tree doc)))))
             (log (initPage (tree doc))
              ++ (log (getQuery h (page (initPage (tree doc))))
                  ++ log (getImdbID h (page (initPage (tree doc))))
                  ++ log (getTmdbID h (page (initPage (tree doc)))))
              ++ evf
              ++ log (render h q i f (page (initPage (tree doc))))).
Proof.
  assert (H0 : initPage (tree doc)
               = Run (Ok tt) (page (initPage (tree doc)))
                     (log (initPage (tree doc)))).
  { rewrite (run_eta (initPage (tree doc))) at 1. f_equal.
    rewrite initPage_run. now destruct (document_querySelector _ _). }
  set (d1 := page (initPage (tree doc))) in *.
  destruct (getImdbID_ok h d1) as [i Hi].
  destruct (getTmdbID_ok h d1) as [t Ht].
  destruct (fetchedTmdbId_shape t d1) as (f & evf & Hf & _).
  exists (Str.replace_spaces
            (match page_title h d1 with Some x => x | None => "" end)),
    i, t, f, evf.
  split; [apply getQuery_out|]. split; [exact Hi|]. split; [exact Ht|].
  split; [exact Hf|].
  assert (Hq : getQuery h d1
               = Run (Ok (Str.replace_spaces
                            (match page_title h d1 with
                             | Some x => x | None => "" end)))
                     d1 (log (getQuery h d1))).
  { rewrite (run_eta (getQuery h d1)) at 1.
    now rewrite getQuery_out, getQuery_page. }
  assert (Hi' : getImdbID h d1 = Run (Ok i) d1 (log (getImdbID h d1))).
  { rewrite (run_eta (getImdbID h d1)) at 1.
    now rewrite Hi, getImdbID_page. }
  assert (Ht' : getTmdbID h d1 = Run (Ok t) d1 (log (getTmdbID h d1))).
  { rewrite (run_eta (getTmdbID h d1)) at 1.
    now rewrite Ht, getTmdbID_page. }
  unfold onload.
  rewrite (bind_ok _ _ _ _ _ _ H0).
  rewrite (bind_ok _ _ _ _ _ _ Hq).
  rewrite (bind_ok _ _ _ _ _ _ Hi').
  rewrite (bind_ok _ _ _ _ _ _ Ht').
  rewrite (bind_ok _ _ _ _ _ _ Hf).
  cbn [out page log]. fold (render h
    (Str.replace_spaces (match page_title h d1 with
                         | Some x => x | None => "" end)) i f).
  unfold render. f_equal. now rewrite <- !app_assoc.
Qed.

End Handler.


(** C3. In a run of the load handler the lookup request is issued at most
    once, and only when [getTmdbID] returned [null] and the URL gave a film
    name; the request then is the one for that name.  When [getTmdbID]
    returns an ID no request is made and that ID is the one in
    [fetchedTmdbId], passed to the provider. *)
Theorem onload_lookup_at_most_once (h : host) (doc : document) :
  length (requests (log (onload h (tree doc)))) <= 1
  /\ (forall u,
        In u (requests (log (onload h (tree doc)))) ->
        out (getTmdbID h (page (initPage (tree doc)))) = Ok None
        /\ exists slug,
             Str.match_film (location_href h) = Some slug /\ u = apiUrl slug)
  /\ (forall id,
        out (getTmdbID h (page (initPage (tree doc)))) = Ok (Some id) ->
        requests (log (onload h (tree doc))) = []
        /\ out (fetchedTmdbId h (Some id) (page (initPage (tree doc))))
           = Ok (J (JStr id))
        /\ forall q i t,
             In (q, i, t) (provider_calls (log (onload h (tree doc)))) ->
             t = J (JStr id)).
Proof.
  destruct (onload_run h doc) as (q & i & t & f & evf & Hq & Hi & Ht & Hf & ->).
  set (d1 := page (initPage (tree doc))) in *. clearbody d1.
  destruct (fetchedTmdbId_shape h t d1) as (f' & ev' & Hf' & Hl & _ & Hy & Hn).
  rewrite Hf in Hf'. injection Hf' as <- <-.
  destruct (initPage_quiet doc) as (R0 & _ & C0 & _).
  destruct (reads_silent _ (readers_read h d1)) as (R1 & _ & C1 & _).
  pose proof (rendering_no_requests _ (render_rendering h q i f d1)) as R2.
  destruct (lookup_silent _ Hl) as (C2 & _).
  cbn [log].
  set (reads := log (getQuery h d1) ++ log (getImdbID h d1)
                ++ log (getTmdbID h d1)) in *.
  rewrite !requests_app, !provider_calls_app.
  rewrite R0, R1, R2, C0, C1, C2, app_nil_r. cbn [app].
  destruct t as [id|]; cbn [of_option_string] in *.
  - destruct (Hy (getTmdbID_truthy h d1 id Ht)) as [-> ->].
    split; [simpl; lia|]. split; [intros u []|].
    intros id' Hid. rewrite Ht in Hid. injection Hid as <-.
    split; [reflexivity|]. split.
    + rewrite fetchedTmdbId_run. cbn [of_option_string].
      now rewrite (getTmdbID_truthy h d1 id Ht).
    + intros q' i' t'. rewrite render_run.
      destruct (nothing_to_show q i (J (JStr id))); [cbn; intros []|].
      cbn [negb].
      assert (Hc : forall l, In (q', i', t')
                     (provider_calls (call_events h q i (J (JStr id)) ++ l)) ->
                   provider_calls l = [] -> t' = J (JStr id)).
      { intros l. rewrite provider_calls_app. intros Hin Hl0.
        rewrite Hl0, app_nil_r in Hin. unfold call_events in Hin.
        destruct (getServices h); simpl in Hin; [|contradiction].
        destruct Hin as [[= _ _ <-]|[]]. reflexivity. }
      destruct (document_querySelector (Sel (ByClass "services")) d1) as [p|] eqn:Es.
      * destruct (search_sound _ _ _ _ Es) as (t0 & a0 & ks0 & Hg & _).
        rewrite Hg. cbn [log]. intros Hin. apply (Hc _ Hin).
        apply services_events_quiet.
      * cbn [log]. intros Hin. apply (Hc _ Hin).
        apply (skipped_events_quiet (provided h q i (J (JStr id)))).
  - specialize (Hn eq_refl).
    destruct (Str.match_film (location_href h)) as [slug|] eqn:Em.
    + rewrite Hn. split; [simpl; lia|]. split.
      * intros u [<-|[]]. split; [exact Ht|]. now exists slug.
      * intros id Hid. rewrite Ht in Hid. discriminate.
    + rewrite Hn. split; [simpl; lia|]. split; [intros u []|].
      intros id Hid. rewrite Ht in Hid. discriminate.
Qed.

Lemma onload_lookup_at_most_once_witness :
  requests (log (onload film_host (tree film_page))) = []
  /\ out (fetchedTmdbId film_host (Some "949")
            (page (initPage (tree film_page)))) = Ok (J (JStr "949"))
  /\ forall q i t,
       In (q, i, t) (provider_calls (log (onload film_host (tree film_page)))) ->
       t = J (JStr "949").
Proof.
  pose proof (onload_lookup_at_most_once film_host film_page) as (_ & _ & H).
  apply (H "949"). reflexivity.
Defined.

(** C7, as the code has it.  A run of the load handler has four phases in
    this order: [initPage], which appends the style element to the head
    and replaces the [#watch] section; the reads of the page by [getQuery],
    [getImdbID] and [getTmdbID]; the lookup, with at most one request; and
    the rendering, which creates and appends the nodes of the links.  So
    every read of the host page's markup for the query and the IDs comes
    after the mutations of [initPage] and before every append of a link,
    and the request comes between the two. *)
Theorem onload_phases (h : host) (doc : document) :
  exists replaced reads lookup rendering,
    log (onload h (tree doc))
    = (init_events ++ replaced) ++ reads ++ lookup ++ rendering
    /\ log (initPage (tree doc)) = init_events ++ replaced
    /\ (replaced = [] \/ exists w, replaced = [DomReplace w services_section])
    /\ reads = log (getQuery h (page (initPage (tree doc))))
               ++ log (getImdbID h (page (initPage (tree doc))))
               ++ log (getTmdbID h (page (initPage (tree doc))))
    /\ forallb is_read reads = true
    /\ forallb is_lookup lookup = true
    /\ length (requests lookup) <= 1
    /\ forallb is_rendering rendering = true.
Proof.
  destruct (onload_run h doc) as (q & i & t & f & evf & _ & _ & _ & Hf & ->).
  set (d1 := page (initPage (tree doc))) in *. clearbody d1.
  destruct (initPage_log doc) as (replaced & E0 & Hr).
  destruct (fetchedTmdbId_shape h t d1) as (f' & ev' & Hf' & Hl & _ & Hy & Hn).
  rewrite Hf in Hf'. injection Hf' as <- <-.
  exists replaced,
    (log (getQuery h d1) ++ log (getImdbID h d1) ++ log (getTmdbID h d1)),
    evf, (log (render h q i f d1)).
  cbn [log]. rewrite E0.
  split; [reflexivity|]. split; [reflexivity|]. split; [exact Hr|].
  split; [reflexivity|]. split; [apply readers_read|]. split; [exact Hl|].
  split; [|apply render_rendering].
  destruct (truthy (of_option_string t)).
  - destruct (Hy eq_refl) as [_ ->]. simpl. lia.
  - specialize (Hn eq_refl).
    destruct (Str.match_film (location_href h)); rewrite Hn; simpl; lia.
Qed.

(** C7, as stated, fails: [initPage] changes the page before anything is
    read.  On the film page the trace has reads after mutations; and on
    the page whose TMDb button is inside the [#watch] section the handler
    does not see the ID 949 that the page came with: it looks the film up
    and passes on what the network says. *)
Lemma onload_reads_after_mutation_counterexample :
  reads_before_mutations (log (onload film_host (tree film_page))) = false
  /\ out (getTmdbID other_id_host (tree film_page_button_in_watch))
     = Ok (Some "949")
  /\ provider_calls
       (log (onload other_id_host (tree film_page_button_in_watch)))
     = [("Heat", Some "tt0113277", J (JNum 603))].
Proof. repeat split. Qed.




(** When the lookup fails and nothing else is found, two diagnostics are
    logged: the one of the lookup and the one of the handler. *)
Lemma onload_two_diagnostics :
  diagnostics (log (onload offline_host (tree blank_page)))
  = [ErrorFetching FetchRejected; FailedToRetrieve].
Proof. vm_compute. reflexivity. Qed.

(** * Further properties *)

(** ** Splitting and joining at slashes *)

Lemma split_slash_app (a b : string) :
  Str.split_slash (String.append a (String "/" b))
  = Str.split_slash a ++ Str.split_slash b.
Proof.
  induction a as [|c r IH]; [reflexivity|].
  cbn [String.append Str.split_slash].
  destruct (Ascii.eqb c "/").
  - now rewrite IH.
  - rewrite IH. pose proof (StrFacts.split_slash_nonempty r) as Hn.
    destruct (Str.split_slash r); [contradiction|reflexivity].
Qed.

Lemma split_slash_free (s : string) :
  slash_free s = true -> Str.split_slash s = [s].
Proof.
  induction s as [|c r IH]; [reflexivity|].
  cbn [slash_free Str.split_slash]. rewrite andb_true_iff, negb_true_iff.
  intros [-> Hr]. now rewrite (IH Hr).
Qed.

(** Splitting what was joined gives the segments back. *)
Lemma split_join_slash (segs : list string) :
  segs <> [] ->
  forallb slash_free segs = true ->
  Str.split_slash (join_slash segs) = segs.
Proof.
  unfold join_slash. induction segs as [|x l IH]; [contradiction|].
  intros _. cbn [forallb]. rewrite andb_true_iff. intros [Hx Hl].
  destruct l as [|y l'].
  - simpl. now apply split_slash_free.
  - change (String.concat "/" (x :: y :: l'))
      with (String.append x (String "/" (String.concat "/" (y :: l')))).
    rewrite split_slash_app, (split_slash_free _ Hx).
    rewrite IH; [reflexivity|discriminate|exact Hl].
Qed.

Lemma pop_app_last (l : list string) (x : string) : Str.pop (l ++ [x]) = Some x.
Proof.
  induction l as [|y r IH]; [reflexivity|].
  cbn [app Str.pop]. destruct (r ++ [x]) eqn:E; [|exact IH].
  now destruct r.
Qed.
(** ** The identifiers in the links *)

Lemma all_digits_slash_free (s : string) :
  Str.all_digits s = true -> slash_free s = true.
Proof.
  induction s as [|c r IH]; [reflexivity|].
  cbn [Str.all_digits slash_free]. rewrite !andb_true_iff.
  intros [Hc Hr]. split; [|now apply IH].
  apply negb_true_iff, Ascii.eqb_neq. intros ->. discriminate Hc.
Qed.

Lemma all_digits_of_Forall (s : string) :
  Forall (fun c => 48 <= nat_of_ascii c <= 57) (list_ascii_of_string s) ->
  Str.all_digits s = true.
Proof.
  induction s as [|c r IH]; simpl; [reflexivity|].
  intros H. inversion H as [|? ? Hc Hr]; subst.
  rewrite (IH Hr), andb_true_r. unfold Str.is_digit.
  apply andb_true_iff. rewrite !Nat.leb_le. lia.
Qed.

(** X1. For a link whose [href] is a URL of slash-free segments, such as
    [http://www.imdb.com/title/tt0113277/maindetails], [getImdbID] returns
    the fifth segment when it starts with "tt". *)
Theorem getImdbID_of_segments
    (h : host) (d : node) (p : path) (segs : list string) (rest : string) :
  document_querySelector (Sel (ByClass "micro-button")) d = Some p ->
  href h d p = Some (join_slash segs) ->
  forallb slash_free segs = true ->
  nth_error segs 4 = Some (String "t" (String "t" rest)) ->
  out (getImdbID h d) = Ok (Some (String "t" (String "t" rest))).
Proof.
  intros Hq Hh Hs Hn. rewrite getImdbID_run, Hq, Hh. cbn [out].
  rewrite split_join_slash; [|now destruct segs|exact Hs].
  rewrite Hn. reflexivity.
Qed.

Lemma getImdbID_of_segments_witness :
  out (getImdbID film_host (tree film_page)) = Ok (Some "tt0113277").
Proof.
  apply (getImdbID_of_segments film_host (tree film_page) [1; 1]
           ["http:"; ""; "www.imdb.com"; "title"; "tt0113277"; "maindetails"]
           "0113277"); reflexivity.
Defined.



(** X3. When the [href] of the TMDb button ends in a slash followed by
    digits, [getTmdbID] returns these digits, whatever comes before. *)
Theorem getTmdbID_of_last_segment
    (h : host) (d : node) (p : path) (before id : string) :
  document_querySelector (Sel (ByClass "tmdb-button")) d = Some p ->
  href h d p = Some (String.append before (String "/" id)) ->
  id <> "" ->
  Forall (fun c => 48 <= nat_of_ascii c <= 57) (list_ascii_of_string id) ->
  out (getTmdbID h d) = Ok (Some id).
Proof.
  intros Hq Hh Hne Hd. apply all_digits_of_Forall in Hd.
  rewrite getTmdbID_run, Hq, Hh. cbn [out].
  rewrite split_slash_app, (split_slash_free id (all_digits_slash_free id Hd)).
  rewrite pop_app_last. unfold Str.test_digits. rewrite Hd.
  apply StrFacts.is_empty_false in Hne. now rewrite Hne.
Qed.

Lemma getTmdbID_of_last_segment_witness :
  out (getTmdbID film_host (tree film_page)) = Ok (Some "949").
Proof.
  apply (getTmdbID_of_last_segment film_host (tree film_page) [1; 2]
           "https://www.themoviedb.org/movie" "949").
  - reflexivity.
  - reflexivity.
  - discriminate.
  - repeat constructor; simpl; lia.
Defined.

(** X4. When the [href] of the TMDb button ends in a slash, as in
    [https://www.themoviedb.org/movie/949/], [getTmdbID] returns [null]:
    the last segment is empty. *)
Theorem getTmdbID_trailing_slash
    (h : host) (d : node) (p : path) (before : string) :
  document_querySelector (Sel (ByClass "tmdb-button")) d = Some p ->
  href h d p = Some (String.append before "/") ->
  out (getTmdbID h d) = Ok None.
Proof.
  intros Hq Hh. rewrite getTmdbID_run, Hq, Hh. cbn [out].
  rewrite split_slash_app. cbn [Str.split_slash]. now rewrite pop_app_last.
Qed.

Lemma getTmdbID_trailing_slash_witness :
  out (getTmdbID
         (browser film_url (fun _ => NetworkError) None)
         (Elem "html" []
            [ Elem "head" [] [];
              Elem "a" [("class", "tmdb-button");
                        ("href", "https://www.themoviedb.org/movie/949/")]
                [] ])) = Ok None.
Proof.
  apply (getTmdbID_trailing_slash _ _ [1] "https://www.themoviedb.org/movie/949");
    reflexivity.
Defined.

(** ** The film name in the URL *)

Lemma until_slash_segment (slug post : string) :
  slash_free slug = true ->
  post = "" \/ (exists q, post = String "/" q) ->
  Str.until_slash (String.append slug post) = slug.
Proof.
  intros Hs Hp. induction slug as [|c r IH].
  - destruct Hp as [->|[q ->]]; reflexivity.
  - cbn [slash_free] in Hs. apply andb_true_iff in Hs. destruct Hs as [Hc Hr].
    apply negb_true_iff in Hc. cbn [String.append Str.until_slash].
    now rewrite Hc, (IH Hr).
Qed.

Lemma film_pattern_here_film (slug post : string) :
  slug <> "" ->
  slash_free slug = true ->
  post = "" \/ (exists q, post = String "/" q) ->
  Str.film_pattern_here
    (String.append "letterboxd.com/film/" (String.append slug post))
  = Some slug.
Proof.
  intros Hne Hs Hp. unfold Str.film_pattern_here.
  change (Str.strip_prefix "letterboxd"
            (String.append "letterboxd.com/film/" (String.append slug post)))
    with (Some (String.append "." (String.append "com/film/"
                                     (String.append slug post)))).
  cbv iota beta.
  assert (Ed : Str.match_dot
                 (String.append "." (String.append "com/film/"
                                       (String.append slug post)))
               = Some (String.append "com/film/" (String.append slug post))).
  { unfold Str.match_dot.
    set (r := String.append "com/film/" (String.append slug post)).
    pose proof (StrFacts.substring_drop "." r) as Hd.
    change (String.append "." r) with (String "." r) in *.
    cbn [Str.chars].
    destruct (Str.chars r) as [|g gs] eqn:Ec.
    - now apply StrFacts.chars_nonempty in Ec.
    - change (Str.starts_with_cont r) with false. cbv iota.
      change ((String.length (String "." "") <=? 3)
              && negb (Str.mem (String "." "") Str.line_terminators))
        with true.
      cbv iota. f_equal. exact Hd. }
  rewrite Ed.
  change (Str.strip_prefix "com/film/"
            (String.append "com/film/" (String.append slug post)))
    with (Some (String.append slug post)).
  cbv iota beta zeta. rewrite (until_slash_segment slug post Hs Hp).
  apply StrFacts.is_empty_false in Hne. now rewrite Hne.
Qed.

Lemma match_film_skip (pre x : string) :
  Forall (fun c => c <> "l"%char) (list_ascii_of_string pre) ->
  Str.match_film (String.append pre x) = Str.match_film x.
Proof.
  induction pre as [|c r IH]; [reflexivity|].
  cbn [list_ascii_of_string]. intros H. inversion H as [|? ? Hc Hr]; subst.
  cbn [String.append Str.match_film].
  assert (E : Str.film_pattern_here (String c (String.append r x)) = None).
  { unfold Str.film_pattern_here. cbn [Str.strip_prefix].
    destruct (Ascii.eqb_spec "l" c) as [<-|_]; [contradiction|reflexivity]. }
  rewrite E. now apply IH.
Qed.

(** X5. On a film URL, [https://letterboxd.com/film/] followed by a name
    and then nothing or a slash and more, [getLetterboxdFilmName] returns
    the name; so also with another scheme or a [www.] before the host, as
    long as what comes before [letterboxd] holds no letter l. *)
Theorem getLetterboxdFilmName_of_film_url
    (h : host) (d : node) (before slug post : string) :
  location_href h
  = String.append before
      (String.append "letterboxd.com/film/" (String.append slug post)) ->
  Forall (fun c => c <> "l"%char) (list_ascii_of_string before) ->
  slug <> "" ->
  slash_free slug = true ->
  post = "" \/ (exists q, post = String "/" q) ->
  out (getLetterboxdFilmName h d) = Ok (Some slug).
Proof.
  intros Hu Hb Hne Hs Hp. unfold getLetterboxdFilmName, ret. cbn [out].
  rewrite Hu, (match_film_skip _ _ Hb).
  pose proof (film_pattern_here_film slug post Hne Hs Hp) as E.
  change (String.append "letterboxd.com/film/" (String.append slug post))
    with (String "l" (String.append "etterboxd.com/film/"
                        (String.append slug post))) in *.
  cbn [Str.match_film]. now rewrite E.
Qed.

Lemma getLetterboxdFilmName_of_film_url_witness :
  out (getLetterboxdFilmName film_host (tree film_page)) = Ok (Some "heat-1995").
Proof.
  apply (getLetterboxdFilmName_of_film_url film_host (tree film_page)
           "https://" "heat-1995" "/").
  - reflexivity.
  - repeat constructor; discriminate.
  - discriminate.
  - reflexivity.
  - right. now exists "".
Defined.



(** ** The query *)

Lemma concat_flatten (l : list string) : String.concat "" l = flatten l.
Proof.
  unfold flatten. induction l as [|x [|y l] IH]; simpl; [reflexivity| |].
  - now rewrite StrFacts.append_empty.
  - simpl in IH. now rewrite IH.
Qed.

Lemma chars_first_byte (c : ascii) (r g : string) (gs : list string) :
  Str.chars (String c r) = g :: gs -> exists g', g = String c g'.
Proof.
  cbn [Str.chars]. destruct (Str.chars r) as [|g0 gs0].
  - intros [= <- <-]. now exists "".
  - destruct (Str.starts_with_cont r); intros [= <- <-]; eauto.
Qed.

(** What [Str.chars] cuts: a first group, then groups that start with a
    byte that is no continuation byte. *)
Lemma chars_groups (s g : string) (gs : list string) :
  Str.chars s = g :: gs ->
  is_group g = true /\ forallb is_lead_group gs = true.
Proof.
  revert g gs. induction s as [|c r IH]; intros g gs; [discriminate|].
  cbn [Str.chars]. destruct (Str.chars r) as [|g0 gs0] eqn:Er.
  - intros [= <- <-]. now split.
  - destruct (IH _ _ eq_refl) as [Hg0 Hgs0].
    destruct r as [|d r']; [discriminate|].
    destruct (chars_first_byte _ _ _ _ Er) as [g' ->].
    cbn [Str.starts_with_cont]. destruct (Str.is_cont d) eqn:Ed.
    + intros [= <- <-]. split; [|exact Hgs0].
      cbn [is_group all_cont]. rewrite Ed. exact Hg0.
    + intros [= <- <-]. split; [reflexivity|].
      cbn [forallb is_lead_group]. rewrite Ed. cbn [negb andb].
      cbn [is_group] in Hg0. now rewrite Hg0.
Qed.

Lemma chars_group_first (t : string) : forall (c : ascii) (rest : string),
  all_cont t = true ->
  Str.starts_with_cont rest = false ->
  Str.chars (String c (String.append t rest)) = String c t :: Str.chars rest.
Proof.
  induction t as [|d t IH]; intros c rest Ht Hr.
  - cbn [String.append Str.chars]. rewrite Hr. now destruct (Str.chars rest).
  - cbn [all_cont] in Ht. apply andb_true_iff in Ht. destruct Ht as [Hd Ht].
    cbn [String.append]. change (Str.chars (String c ?x))
      with (match Str.chars x with
            | g :: gs => if Str.starts_with_cont x then String c g :: gs
                         else String c "" :: g :: gs
            | [] => [String c ""]
            end).
    rewrite (IH d rest Ht Hr). cbn [Str.starts_with_cont]. now rewrite Hd.
Qed.

Lemma chars_flatten_lead (gs : list string) :
  forallb is_lead_group gs = true ->
  Str.chars (flatten gs) = gs /\ Str.starts_with_cont (flatten gs) = false.
Proof.
  induction gs as [|g gs IH]; [now split|].
  cbn [forallb]. rewrite andb_true_iff. intros [Hg Hgs].
  destruct (IH Hgs) as [Ec Es].
  destruct g as [|c t]; [discriminate|].
  cbn [is_lead_group] in Hg. apply andb_true_iff in Hg. destruct Hg as [Hc Ht].
  unfold flatten. cbn [fold_right String.append]. fold (flatten gs).
  split.
  - now rewrite (chars_group_first t c (flatten gs) Ht Es), Ec.
  - cbn [Str.starts_with_cont]. now apply negb_true_iff.
Qed.

(** Cutting what was put together from groups gives the groups back. *)
Lemma chars_flatten (g : string) (gs : list string) :
  is_group g = true ->
  forallb is_lead_group gs = true ->
  Str.chars (flatten (g :: gs)) = g :: gs.
Proof.
  intros Hg Hgs. destruct (chars_flatten_lead gs Hgs) as [Ec Es].
  destruct g as [|c t]; [discriminate|].
  unfold flatten. cbn [fold_right String.append]. fold (flatten gs).
  now rewrite (chars_group_first t c (flatten gs) Hg Es), Ec.
Qed.

Lemma lead_group_is_group (g : string) :
  is_lead_group g = true -> is_group g = true.
Proof.
  destruct g as [|c t]; [discriminate|]. cbn. now rewrite andb_true_iff.
Qed.

Lemma space_is_lead_group (g : string) :
  Str.is_space g = true -> is_lead_group g = true.
Proof.
  unfold Str.is_space, Str.mem. rewrite existsb_exists.
  intros (w & Hw & E). apply String.eqb_eq in E. subst w.
  cbn [Str.whitespace In] in Hw.
  repeat (destruct Hw as [<-|Hw]; [reflexivity|]). contradiction.
Qed.

Lemma hyphenate_lead (gs : list string) : forall b,
  forallb is_lead_group gs = true ->
  forallb is_lead_group (Str.hyphenate_chars b gs) = true.
Proof.
  induction gs as [|g gs IH]; intros b; [reflexivity|].
  cbn [forallb Str.hyphenate_chars]. rewrite andb_true_iff. intros [Hg Hgs].
  destruct (Str.is_space g).
  - destruct b; cbn [forallb]; rewrite ?IH; auto.
  - cbn [forallb]. now rewrite Hg, IH.
Qed.

Lemma hyphenate_no_space (gs : list string) : forall b,
  forallb (fun ch => negb (Str.is_space ch)) (Str.hyphenate_chars b gs) = true.
Proof.
  induction gs as [|g gs IH]; intros b; [reflexivity|].
  cbn [Str.hyphenate_chars]. destruct (Str.is_space g) eqn:Eg.
  - destruct b; cbn [forallb]; rewrite ?IH; reflexivity.
  - cbn [forallb]. now rewrite Eg, IH.
Qed.

Lemma hyphenate_without_space (gs : list string) :
  forallb (fun ch => negb (Str.is_space ch)) gs = true ->
  Str.hyphenate_chars false gs = gs.
Proof.
  induction gs as [|g gs IH]; [reflexivity|].
  cbn [forallb Str.hyphenate_chars]. rewrite andb_true_iff, negb_true_iff.
  intros [-> Hgs]. now rewrite IH.
Qed.

(** The characters of a string after the replacement are those the
    replacement made. *)
Lemma chars_replace_spaces (s : string) :
  Str.chars (Str.replace_spaces s) = Str.hyphenate_chars false (Str.chars s).
Proof.
  unfold Str.replace_spaces. rewrite concat_flatten.
  destruct (Str.chars s) as [|g gs] eqn:Ec; [reflexivity|].
  destruct (chars_groups _ _ _ Ec) as [Hg Hgs].
  cbn [Str.hyphenate_chars]. destruct (Str.is_space g) eqn:Eg.
  - pose proof (hyphenate_lead gs true Hgs) as Hl.
    apply (chars_flatten "-" _ eq_refl Hl).
  - apply chars_flatten; [exact Hg|now apply hyphenate_lead].
Qed.

(** X7. The query [getQuery] returns holds no whitespace character: no
    space, tab or line break, and none of the Unicode spaces that [\s]
    matches. *)
Theorem getQuery_without_whitespace (h : host) (d : node) (query : string) :
  out (getQuery h d) = Ok query ->
  forallb (fun ch => negb (Str.is_space ch)) (Str.chars query) = true.
Proof.
  rewrite getQuery_out. intros [= <-].
  rewrite chars_replace_spaces. apply hyphenate_no_space.
Qed.

Lemma getQuery_without_whitespace_witness :
  forallb (fun ch => negb (Str.is_space ch)) (Str.chars "Heat") = true.
Proof.
  apply (getQuery_without_whitespace film_host (tree film_page) "Heat").
  reflexivity.
Defined.

(** X8. A title without a whitespace character is the query, as it is;
    and replacing the whitespace of a query again changes nothing. *)
Theorem getQuery_of_plain_title (h : host) (d : node) (title : string) :
  page_title h d = Some title ->
  forallb (fun ch => negb (Str.is_space ch)) (Str.chars title) = true ->
  out (getQuery h d) = Ok title
  /\ Str.replace_spaces title = title.
Proof.
  intros Ht Hs. rewrite getQuery_out, Ht.
  assert (E : Str.replace_spaces title = title).
  { unfold Str.replace_spaces.
    rewrite (hyphenate_without_space _ Hs). apply StrFacts.chars_concat. }
  now rewrite E.
Qed.

Lemma getQuery_of_plain_title_witness :
  out (getQuery film_host (tree film_page)) = Ok "Heat"
  /\ Str.replace_spaces "Heat" = "Heat".
Proof.
  apply (getQuery_of_plain_title film_host (tree film_page) "Heat");
    reflexivity.
Defined.

(** ** Reading leaves the page alone *)

(** X9. The four extraction functions only read: each leaves the page as
    it is, and its trace holds nothing but queries and reads of the DOM,
    so no request, no diagnostic and no change of the page. *)
Theorem extraction_reads_only (h : host) (d : node) :
  (page (getQuery h d) = d /\ forallb is_read (log (getQuery h d)) = true)
  /\ (page (getImdbID h d) = d
      /\ forallb is_read (log (getImdbID h d)) = true)
  /\ (page (getTmdbID h d) = d
      /\ forallb is_read (log (getTmdbID h d)) = true)
  /\ (page (getLetterboxdFilmName h d) = d
      /\ log (getLetterboxdFilmName h d) = []).
Proof.
  repeat split.
  - apply getQuery_page.
  - apply getQuery_reads.
  - apply getImdbID_page.
  - apply getImdbID_reads.
  - apply getTmdbID_page.
  - apply getTmdbID_reads.
Qed.

(** ** Creating elements *)






(** ** The request *)

Lemma hex_digit_unreserved (k : nat) :
  k < 16 -> Str.is_unreserved (Str.hex_digit k) = true.
Proof.
  intros Hk. do 16 (destruct k as [|k]; [reflexivity|]). lia.
Qed.

Lemma encodeURIComponent_alphabet (s : string) :
  Forall (fun c => Str.is_unreserved c = true \/ c = "%"%char)
         (list_ascii_of_string (Str.encodeURIComponent s)).
Proof.
  induction s as [|c r IH]; [constructor|].
  cbn [Str.encodeURIComponent]. destruct (Str.is_unreserved c) eqn:Ec.
  - constructor; auto.
  - pose proof (nat_ascii_bounded c) as Hb.
    cbv zeta. cbn [list_ascii_of_string].
    constructor; [now right|].
    constructor.
    { left. apply hex_digit_unreserved.
      apply Nat.Div0.div_lt_upper_bound. simpl. lia. }
    constructor; [|exact IH].
    left. apply hex_digit_unreserved. apply Nat.mod_upper_bound. lia.
Qed.

(** X11. The lookup asks for the search URL with the key of the script and
    the encoded film name as the [query] parameter, and the encoded name
    holds none of the characters that delimit parts of a URL: whatever the
    film name, the request has these two parameters and no other. *)
Theorem fetchTmdbId_request (h : host) (filmName : string) (d : node) :
  requests (log (fetchTmdbIdFromLetterboxd h filmName d))
  = [ String.append
        "https://api.themoviedb.org/3/search/movie?api_key=e5bb3f8f15d40063752ff87b4c360b05&query="
        (Str.encodeURIComponent filmName) ]
  /\ forall c,
       In c (list_ascii_of_string (Str.encodeURIComponent filmName)) ->
       ~ In c url_delimiters.
Proof.
  split.
  - destruct (fetchTmdbId_shape h filmName d) as (v & ds & -> & _).
    assert (E : requests (map ConsoleError ds) = [])
      by (induction ds; simpl; auto).
    cbn [log requests]. rewrite E. reflexivity.
  - intros c Hc Hd.
    pose proof (encodeURIComponent_alphabet filmName) as Ha.
    rewrite Forall_forall in Ha. specialize (Ha c Hc).
    cbn [url_delimiters In] in Hd.
    repeat (destruct Hd as [<-|Hd]; [destruct Ha as [Ha|Ha]; discriminate Ha|]).
    contradiction.
Qed.

Lemma hex_digit_value (k : nat) :
  k < 16 ->
  nat_of_ascii (Str.hex_digit k) = if k <? 10 then 48 + k else 55 + k.
Proof.
  intros Hk. unfold Str.hex_digit, Str.byte.
  destruct (k <? 10) eqn:E; apply nat_ascii_embedding; lia.
Qed.

Lemma hex_digit_injective (j k : nat) :
  j < 16 -> k < 16 -> Str.hex_digit j = Str.hex_digit k -> j = k.
Proof.
  intros Hj Hk E. apply (f_equal nat_of_ascii) in E.
  rewrite !hex_digit_value in E by assumption.
  destruct (j <? 10) eqn:Ej, (k <? 10) eqn:Ek;
    rewrite ?Nat.ltb_lt, ?Nat.ltb_ge in *; lia.
Qed.

Lemma encodeURIComponent_injective (s1 : string) : forall s2,
  Str.encodeURIComponent s1 = Str.encodeURIComponent s2 -> s1 = s2.
Proof.
  induction s1 as [|c1 r1 IH]; intros [|c2 r2]; cbn [Str.encodeURIComponent].
  - reflexivity.
  - destruct (Str.is_unreserved c2); discriminate.
  - destruct (Str.is_unreserved c1); discriminate.
  - destruct (Str.is_unreserved c1) eqn:E1, (Str.is_unreserved c2) eqn:E2;
      cbv zeta.
    + intros [= -> H]. now rewrite (IH _ H).
    + intros [= -> _]. discriminate E1.
    + intros [= <- _]. discriminate E2.
    + pose proof (nat_ascii_bounded c1) as B1.
      pose proof (nat_ascii_bounded c2) as B2.
      pose proof (Nat.div_mod_eq (nat_of_ascii c1) 16) as D1.
      pose proof (Nat.div_mod_eq (nat_of_ascii c2) 16) as D2.
      assert (Q1 : nat_of_ascii c1 / 16 < 16)
        by (apply Nat.Div0.div_lt_upper_bound; simpl; lia).
      assert (Q2 : nat_of_ascii c2 / 16 < 16)
        by (apply Nat.Div0.div_lt_upper_bound; simpl; lia).
      assert (M1 : nat_of_ascii c1 mod 16 < 16)
        by (apply Nat.mod_upper_bound; lia).
      assert (M2 : nat_of_ascii c2 mod 16 < 16)
        by (apply Nat.mod_upper_bound; lia).
      revert D1 D2 Q1 Q2 M1 M2.
      generalize (nat_of_ascii c1 / 16), (nat_of_ascii c1 mod 16),
        (nat_of_ascii c2 / 16), (nat_of_ascii c2 mod 16).
      intros q1 m1 q2 m2 D1 D2 Q1 Q2 M1 M2 [= Hh Hl H].
      rewrite (IH _ H). f_equal.
      apply hex_digit_injective in Hh; [|assumption|assumption].
      apply hex_digit_injective in Hl; [|assumption|assumption].
      rewrite <- (ascii_nat_embedding c1), <- (ascii_nat_embedding c2).
      f_equal. lia.
Qed.

Lemma append_injective (a b c : string) :
  String.append a b = String.append a c -> b = c.
Proof. induction a as [|x a IH]; simpl; [auto|]. intros [= H]. auto. Qed.

(** X12. The lookup asks a different URL for every film name: two names
    that differ give two request URLs that differ. *)
Theorem apiUrl_distinct (name1 name2 : string) :
  name1 <> name2 -> apiUrl name1 <> apiUrl name2.
Proof.
  intros Hn H. apply Hn. unfold apiUrl in H. cbn [String.concat] in H.
  do 6 apply append_injective in H.
  now apply encodeURIComponent_injective.
Qed.

Lemma apiUrl_distinct_witness : apiUrl "heat-1995" <> apiUrl "heat 1995".
Proof. apply (apiUrl_distinct "heat-1995" "heat 1995"). discriminate. Defined.

(** ** What [initPage] does to the page *)

Lemma get_tree_styled (doc : document) (p : path) t a ks :
  get (tree doc) p = Some (Elem t a ks) ->
  exists ks', get (styled doc) p = Some (Elem t a ks').
Proof.
  unfold styled, tree. destruct p as [|[|i] p]; cbn [get nth_error].
  - intros [= <- <- <-]. eexists. reflexivity.
  - destruct p as [|j p]; cbn [get].
    + intros [= <- <- <-]. eexists. reflexivity.
    + destruct (nth_error (head_children doc) j) as [k|] eqn:Hn; [|discriminate].
      rewrite nth_error_app1 by (apply nth_error_Some; congruence).
      rewrite Hn. intros H. now exists ks.
  - intros H. now exists ks.
Qed.

Lemma styled_replace (doc : document) :
  styled doc
  = replace_at [0]
      (Elem "head" (head_attrs doc) (head_children doc ++ [style_node]))
      (tree doc).
Proof. reflexivity. Qed.




(** X13. When the document has an element with the ID [watch],
    [initPage] replaces the first one by an empty section of class
    [services] and appends the style element to the head; apart from that
    section the page is the document with the style element, and a query
    for [.services] now finds a section. *)
Theorem initPage_replaces_watch
    (doc : document) (q : path) (t : string) (a : attrs) (ks : list node) :
  get (tree doc) q = Some (Elem t a ks) ->
  has_id "watch" a = true ->
  exists w,
    document_querySelector (Sel (ById "watch")) (styled doc) = Some w
    /\ out (initPage (tree doc)) = Ok tt
    /\ get (page (initPage (tree doc))) w
       = Some (Elem "section" [("class", "services")] [])
    /\ (forall q', apart w q' = true ->
                   get (page (initPage (tree doc))) q' = get (styled doc) q')
    /\ exists p,
         document_querySelector (Sel (ByClass "services"))
           (page (initPage (tree doc))) = Some p.
Proof.
  intros Hg Hi. destruct (get_tree_styled doc q t a ks Hg) as [ks' Hg'].
  destruct (document_querySelector (Sel (ById "watch")) (styled doc))
    as [w|] eqn:Hw.
  - exists w. rewrite initPage_run, Hw. cbn [out page].
    destruct (search_sound _ _ _ _ Hw) as (t1 & a1 & ks1 & Hg1 & _).
    pose proof (get_replace_at_same w _ _ services_section Hg1) as Hs.
    repeat split; auto.
    + intros q' Hq'. now apply get_replace_at_apart.
    + destruct (document_querySelector (Sel (ByClass "services"))
                  (replace_at w services_section (styled doc))) as [p|] eqn:Es;
        [now exists p|].
      apply absent_querySelector in Es.
      specialize (Es w _ _ _ Hs). discriminate Es.
  - apply absent_querySelector in Hw. specialize (Hw q t a ks' Hg').
    cbn [matches_simple] in Hw. congruence.
Qed.

Lemma initPage_replaces_watch_witness :
  exists w,
    document_querySelector (Sel (ById "watch")) (styled film_page) = Some w
    /\ out (initPage (tree film_page)) = Ok tt
    /\ get (page (initPage (tree film_page))) w
       = Some (Elem "section" [("class", "services")] [])
    /\ (forall q', apart w q' = true ->
                   get (page (initPage (tree film_page))) q'
                   = get (styled film_page) q')
    /\ exists p,
         document_querySelector (Sel (ByClass "services"))
           (page (initPage (tree film_page))) = Some p.
Proof.
  apply (initPage_replaces_watch film_page [1; 3] "section" [("id", "watch")]
           [Text "Where to watch"]); reflexivity.
Defined.

(** X14. When the document has no element with the ID [watch],
    [initPage] only appends the style element to the head, and a document
    without an element of class [services] is still without one. *)
Theorem initPage_only_styles (doc : document) :
  absent (ById "watch") (tree doc) ->
  out (initPage (tree doc)) = Ok tt
  /\ page (initPage (tree doc)) = styled doc
  /\ appends (log (initPage (tree doc))) = [([0], style_node)]
  /\ (absent (ByClass "services") (tree doc) ->
      absent (ByClass "services") (page (initPage (tree doc)))).
Proof.
  intros Hw. destruct (initPage_quiet doc) as (_ & _ & _ & Ha).
  assert (Hw' : document_querySelector (Sel (ById "watch")) (styled doc) = None).
  { apply absent_querySelector. now apply absent_styled. }
  assert (E : page (initPage (tree doc)) = styled doc)
    by (now rewrite initPage_run, Hw').
  split; [now rewrite initPage_run, Hw'|]. split; [exact E|].
  split; [exact Ha|]. rewrite E. now apply absent_styled.
Qed.

Lemma initPage_only_styles_witness :
  out (initPage (tree film_page_without_watch)) = Ok tt
  /\ page (initPage (tree film_page_without_watch))
     = styled film_page_without_watch
  /\ appends (log (initPage (tree film_page_without_watch)))
     = [([0], style_node)]
  /\ (absent (ByClass "services") (tree film_page_without_watch) ->
      absent (ByClass "services")
        (page (initPage (tree film_page_without_watch)))).
Proof.
  apply (initPage_only_styles film_page_without_watch).
  apply absent_querySelector. reflexivity.
Defined.

(** ** Services one after the other *)

(** X15. [addService] for one descriptor after the other appends the
    links, in this order, to one section: the first element of class
    [services] of the page, which stays the first one as it fills. *)
Theorem addService_in_turn
    (d : node) (p : path) (l : list ServiceData) :
  document_querySelector (Sel (ByClass "services")) d = Some p ->
  exists t a ks,
    get d p = Some (Elem t a ks)
    /\ out (for_each l addService d) = Ok tt
    /\ get (page (for_each l addService d)) p
       = Some (Elem t a (ks ++ map serviceItem l))
    /\ (forall q, apart p q = true ->
                  get (page (for_each l addService d)) q = get d q)
    /\ appends (log (for_each l addService d))
       = map (fun sd => (p, serviceItem sd)) l
    /\ document_querySelector (Sel (ByClass "services"))
         (page (for_each l addService d)) = Some p.
Proof.
  intros Hq. destruct (search_sound _ _ _ _ Hq) as (t & a & ks & Hg & _).
  exists t, a, ks. rewrite (for_each_addService_section p t a l ks d Hq Hg).
  cbn [out page log]. split; [exact Hg|]. split; [reflexivity|].
  split; [now apply get_replace_at_same with (x := Elem t a ks)|].
  split; [intros q Hpq; now apply get_replace_at_apart|].
  split; [apply services_events_appends|].
  now apply search_replace_children with (ks := ks).
Qed.

Lemma addService_in_turn_witness :
  exists t a ks,
    get (Elem "section" [("class", "services")] []) [] = Some (Elem t a ks)
    /\ out (for_each [ {| name := "A"; url := "U"; icon := "I" |};
                       {| name := "B"; url := "V"; icon := "J" |} ]
              addService (Elem "section" [("class", "services")] [])) = Ok tt
    /\ get (page (for_each [ {| name := "A"; url := "U"; icon := "I" |};
                             {| name := "B"; url := "V"; icon := "J" |} ]
                    addService (Elem "section" [("class", "services")] []))) []
       = Some (Elem t a
                 (ks ++ map serviceItem
                          [ {| name := "A"; url := "U"; icon := "I" |};
                            {| name := "B"; url := "V"; icon := "J" |} ]))
    /\ (forall q, apart [] q = true ->
          get (page (for_each [ {| name := "A"; url := "U"; icon := "I" |};
                                {| name := "B"; url := "V"; icon := "J" |} ]
                       addService (Elem "section" [("class", "services")] []))) q
          = get (Elem "section" [("class", "services")] []) q)
    /\ appends (log (for_each [ {| name := "A"; url := "U"; icon := "I" |};
                                {| name := "B"; url := "V"; icon := "J" |} ]
                       addService (Elem "section" [("class", "services")] [])))
       = map (fun sd => ([], serviceItem sd))
             [ {| name := "A"; url := "U"; icon := "I" |};
               {| name := "B"; url := "V"; icon := "J" |} ]
    /\ document_querySelector (Sel (ByClass "services"))
         (page (for_each [ {| name := "A"; url := "U"; icon := "I" |};
                           {| name := "B"; url := "V"; icon := "J" |} ]
                  addService (Elem "section" [("class", "services")] [])))
       = Some [].
Proof.
  apply (addService_in_turn (Elem "section" [("class", "services")] []) []).
  reflexivity.
Defined.

(** ** The load handler, from end to end *)



(** X17. The load handler changes nothing outside three places: the head,
    the first [#watch] section and the first section of class [services].
    A node on a path apart from these is after the handler what it was in
    the document. *)
Theorem onload_leaves_the_rest
    (h : host) (doc : document) (q : path) :
  apart [0] q = true ->
  (forall w, document_querySelector (Sel (ById "watch")) (styled doc) = Some w ->
             apart w q = true) ->
  (forall p, document_querySelector (Sel (ByClass "services"))
               (page (initPage (tree doc))) = Some p ->
             apart p q = true) ->
  get (page (onload h (tree doc))) q = get (tree doc) q.
Proof.
  intros Hh Hw Hs.
  assert (E0 : get (styled doc) q = get (tree doc) q).
  { rewrite styled_replace. now apply get_replace_at_apart. }
  assert (E1 : get (page (initPage (tree doc))) q = get (tree doc) q).
  { rewrite initPage_run.
    destruct (document_querySelector (Sel (ById "watch")) (styled doc))
      as [w|] eqn:Ew; cbn [page]; [|exact E0].
    rewrite get_replace_at_apart; [exact E0|now apply Hw]. }
  destruct (onload_run h doc) as (qu & i & t & f & evf & _ & _ & _ & _ & ->).
  cbn [page]. rewrite render_run.
  destruct (nothing_to_show qu i f); cbn [negb page]; [exact E1|].
  destruct (document_querySelector (Sel (ByClass "services"))
              (page (initPage (tree doc)))) as [p|] eqn:Es; [|exact E1].
  destruct (search_sound _ _ _ _ Es) as (t1 & a1 & ks1 & Hg1 & _).
  rewrite Hg1. cbn [page].
  rewrite get_replace_at_apart; [exact E1|now apply Hs].
Qed.

Lemma onload_leaves_the_rest_witness :
  get (page (onload film_host (tree film_page))) [1; 0; 0]
  = get (tree film_page) [1; 0; 0].
Proof.
  apply (onload_leaves_the_rest film_host film_page [1; 0; 0]).
  - reflexivity.
  - intros w Hw. vm_compute in Hw. injection Hw as <-. reflexivity.
  - intros p Hp. vm_compute in Hp. injection Hp as <-. reflexivity.
Defined.



(** X19. When the page gives no TMDb ID, the URL gives a film name and
    the search answers with a non-empty list of results whose first one
    is not [null], the ID the handler goes on with is the [id] of that
    first result, and it is what the provider gets as the TMDb ID. *)
Theorem onload_uses_looked_up_id
    (h : host) (doc : document) (slug : string) (ms : list (string * json))
    (x : json) (xs : list json) :
  out (getTmdbID h (page (initPage (tree doc)))) = Ok None ->
  Str.match_film (location_href h) = Some slug ->
  network h (apiUrl slug) = Body (JObj ms) ->
  member "results" ms = Some (JArr (x :: xs)) ->
  x <> JNull ->
  out (fetchedTmdbId h None (page (initPage (tree doc)))) = Ok (id_member x)
  /\ forall q i t,
       In (q, i, t) (provider_calls (log (onload h (tree doc)))) ->
       t = id_member x.
Proof.
  intros Ht Hm Ha Hr Hx.
  assert (Ef : forall d, fetchedTmdbId h None d
                         = Run (Ok (id_member x)) d [NetRequest (apiUrl slug)]).
  { intros d. rewrite fetchedTmdbId_run. cbn [of_option_string null truthy].
    rewrite Hm. unfold fetchTmdbIdFromLetterboxd.
    generalize dependent (apiUrl slug). intros u Ha.
    answered Ha. rewrite Hr.
    destruct x; try contradiction; reflexivity. }
  split; [now rewrite Ef|].
  destruct (onload_run h doc) as (q & i & t & f & evf & _ & _ & Ht' & Hf & ->).
  rewrite Ht in Ht'. injection Ht' as <-.
  rewrite Ef in Hf. injection Hf as <- <-.
  destruct (initPage_quiet doc) as (_ & _ & C0 & _).
  set (d1 := page (initPage (tree doc))) in *. clearbody d1.
  destruct (reads_silent _ (readers_read h d1)) as (_ & _ & C1 & _).
  cbn [log].
  set (reads := log (getQuery h d1) ++ log (getImdbID h d1)
                ++ log (getTmdbID h d1)) in *.
  rewrite !provider_calls_app, C0, C1. cbn [provider_calls app].
  intros q' i' t'. rewrite render_run.
  destruct (nothing_to_show q i (id_member x)); [cbn; intros []|].
  cbn [negb].
  assert (Hc : forall l, In (q', i', t')
                 (provider_calls (call_events h q i (id_member x) ++ l)) ->
               provider_calls l = [] -> t' = id_member x).
  { intros l. rewrite provider_calls_app. intros Hin Hl0.
    rewrite Hl0, app_nil_r in Hin. unfold call_events in Hin.
    destruct (getServices h); simpl in Hin; [|contradiction].
    destruct Hin as [[= _ _ <-]|[]]. reflexivity. }
  destruct (document_querySelector (Sel (ByClass "services")) d1) as [p|] eqn:Es.
  - destruct (search_sound _ _ _ _ Es) as (t0 & a0 & ks0 & Hg & _).
    rewrite Hg. cbn [log]. intros Hin. apply (Hc _ Hin).
    apply services_events_quiet.
  - cbn [log]. intros Hin. apply (Hc _ Hin).
    apply (skipped_events_quiet (provided h q i (id_member x))).
Qed.

Lemma onload_uses_looked_up_id_witness :
  out (fetchedTmdbId other_id_host None
         (page (initPage (tree film_page_button_in_watch))))
  = Ok (id_member (JObj [("id", JNum 603)]))
  /\ forall q i t,
       In (q, i, t)
          (provider_calls
             (log (onload other_id_host (tree film_page_button_in_watch)))) ->
       t = id_member (JObj [("id", JNum 603)]).
Proof.
  apply (onload_uses_looked_up_id other_id_host film_page_button_in_watch
           "heat-1995"
           [("page", JNum 1); ("results", JArr [JObj [("id", JNum 603)]])]
           (JObj [("id", JNum 603)]) []).
  - vm_compute. reflexivity.
  - vm_compute. reflexivity.
  - reflexivity.
  - reflexivity.
  - discriminate.
Defined.
